(** * The 1C exchange endpoint ([Exchange1c], src/First task/first.ts)

    A shallow embedding of the [Exchange1c] cloud function: credential
    check and session issuance ([checkauth]), the Firestore-backed session
    store ([loadSession], [saveSession], [deleteExpiredSessions]), request
    validation ([validateRequestSessionInfo]), the upload routing of
    [file] / [fileReport] / [saveToStorage] and the dispatcher [main].

    Conventions.
    - A JavaScript [Date] is its number of milliseconds since the epoch, a
      [Z].  A Firestore [Timestamp] is identified with the [Date] that
      [toDate()] gives for it.
    - A value that may be [undefined] at run time is an [option].
    - Everything the class reaches through [this] or through a global
      (Firestore, Cloud Storage, the console, the clock, the uuid
      generator) lives in one [World] that every method threads through
      the state monad [M].
    - Calls to Firestore and Cloud Storage are taken to succeed, and a
      path handed to [firestore.doc] to be a document path; the two
      promises [checkauth] awaits together are run in one of the orders
      the scheduler may pick ([Interleaving]).
    - Functions imported from npm packages that are not part of the
      repository (cookie, path.posix, luxon's formatter) are the fields
      of an [Imports] record the development is parametric in; [Node]
      gives one executable instance of it, used to run examples. *)

From Stdlib Require Import ZArith.
From Stdlib.Strings Require Import String Ascii Byte.
From stdpp Require Import gmap strings list fin_maps pretty.

Open Scope Z_scope.

(** ** Data model *)

(** [interface BasicCredentials]. *)
Record BasicCredentials := {
  username : string;
  password : string
}.

(** [interface Settings extends BasicCredentials]: the inherited fields are
    reached through the coercion. *)
Record Settings := {
  credentials :> BasicCredentials;
  zip : bool;
  fileSizeLimit : Z;
  sessionDurationSeconds : Z;
  sessionIdCookieName : string;
  csrfProtection : bool;
  csrfTokenName : string;
  sessionsStoragePath : string
}.

(** [interface RequestSessionInfo].  [sessionId] is read out of the cookie
    jar by name, so at run time it can be [undefined]. *)
Record RequestSessionInfo := {
  sessionId : option string;
  csrfToken : string
}.

(** [interface ExchangeSession]: the session [checkauth] builds and
    [loadSession] returns. *)
Record ExchangeSession := {
  es_sessionId : string;
  es_csrfToken : string;
  expirationTimestamp : Z
}.

(** [interface ExchangeSessionStoredInFirestore]: a document as it comes
    back from Firestore.  [loadSession] guards against a document without
    [expirationTimestamp], hence the option. *)
Record ExchangeSessionStoredInFirestore := {
  stored_sessionId : string;
  stored_csrfToken : string;
  stored_expirationTimestamp : option Z
}.

Definition Buffer := list byte.

(** The part of an express [Request] the class reads. *)
Record Request := {
  (** [request.query]. *)
  query : gmap string string;
  (** [request.header('Cookie')]. *)
  cookieHeader : option string;
  (** What [auth(request)] of package basic-auth reads in the
      Authorization header: the name and the pass, if any. *)
  basicAuth : option (string * string);
  (** [request.rawBody]. *)
  rawBody : option Buffer
}.

(** One object written to Cloud Storage. *)
Record Upload := {
  bucketName : string;
  remotePath : string;
  data : Buffer
}.

(** Console output.  Lines that print [JSON.stringify] of an object keep
    the object instead of its rendering. *)
Inductive ConsoleEntry :=
| Log (text : string)
| LogRequest (request : Request)
| LogSessionInfo (info : RequestSessionInfo)
| Error (message : option string).

(** [Promise.all([deleteExpiredSessions(), saveSession(session)])] leaves
    the order of the three Firestore operations (the sweep's query, the
    sweep's deletes, the save) to the scheduler, the deletes coming after
    the query. *)
Inductive Interleaving :=
| QueryDeleteSave
| QuerySaveDelete
| SaveQueryDelete.

Record World := {
  firestore : gmap string ExchangeSessionStoredInFirestore;
  uploads : list Upload;
  console : list ConsoleEntry;
  clock : nat -> Z;
  ticks : nat;
  uuids : nat -> string;
  drawn : nat;
  race : nat -> Interleaving
}.

(** Packages the file imports. *)
Record Imports := {
  (** [parse] of package cookie. *)
  cookie_parse : string -> gmap string string;
  (** [posix.join], [posix.dirname], [posix.basename] of package path. *)
  posix_join : string -> string -> string;
  posix_dirname : string -> string;
  posix_basename : string -> string;
  (** [DateTime#toFormat] of package luxon, in the UTC zone. *)
  luxon_toFormat : Z -> string -> string
}.

(** ** The state monad *)

Definition M (A : Type) : Type := World -> A * World.

Definition ret {A} (a : A) : M A := fun w => (a, w).

Definition bind {A B} (m : M A) (k : A -> M B) : M B :=
  fun w => let (a, w') := m w in k a w'.

Notation "'let*' x ':=' m 'in' k" := (bind m (fun x => k))
  (at level 10, x name, m at level 100, k at level 200).
Notation "m '>>' k" := (bind m (fun _ => k))
  (at level 90, right associativity).

(** *** Primitive effects *)

Definition console_put (e : ConsoleEntry) : M unit :=
  fun w => (tt, {| firestore := firestore w; uploads := uploads w;
                   console := console w ++ [e];
                   clock := clock w; ticks := ticks w;
                   uuids := uuids w; drawn := drawn w; race := race w |}).

Definition console_log (text : string) : M unit :=
  console_put (Log text).

Definition console_error (message : option string) : M unit :=
  console_put (Error message).

(** [DateTime.utc()]: the next reading of the clock. *)
Definition utc : M Z :=
  fun w => (clock w (ticks w),
            {| firestore := firestore w; uploads := uploads w;
               console := console w;
               clock := clock w; ticks := S (ticks w);
               uuids := uuids w; drawn := drawn w; race := race w |}).

(** [uuidv4()]. *)
Definition uuidv4 : M string :=
  fun w => (uuids w (drawn w),
            {| firestore := firestore w; uploads := uploads w;
               console := console w;
               clock := clock w; ticks := ticks w;
               uuids := uuids w; drawn := S (drawn w); race := race w |}).

Definition with_firestore
    (f : gmap string ExchangeSessionStoredInFirestore ->
         gmap string ExchangeSessionStoredInFirestore) : M unit :=
  fun w => (tt, {| firestore := f (firestore w); uploads := uploads w;
                   console := console w;
                   clock := clock w; ticks := ticks w;
                   uuids := uuids w; drawn := drawn w; race := race w |}).

(** [firestore.doc(path).get()], for a path [firestore.doc] accepts as a
    document path: [None] when [doc.exists] is false.  ([firestore.doc]
    throws on a path that is not a document path; the properties that
    look an id up say for which ids they hold.) *)
Definition doc_get (path : string)
  : M (option ExchangeSessionStoredInFirestore) :=
  fun w => (firestore w !! path, w).

(** [doc.ref.delete()]. *)
Definition doc_delete (path : string) : M unit :=
  with_firestore (delete path).

(** [doc.set(value)]. *)
Definition doc_set (path : string) (d : ExchangeSessionStoredInFirestore)
  : M unit :=
  with_firestore (insert path d).

(** The writable stream of [bucket(bucketName).file(remotePath)], ended
    with the data. *)
Definition storage_write (u : Upload) : M unit :=
  fun w => (tt, {| firestore := firestore w; uploads := uploads w ++ [u];
                   console := console w;
                   clock := clock w; ticks := ticks w;
                   uuids := uuids w; drawn := drawn w; race := race w |}).

(** How the scheduler resolves the race of the current [checkauth]. *)
Definition scheduled : M Interleaving :=
  fun w => (race w (ticks w), w).

(** ** JavaScript idioms *)

(** The line feed of ['\n']. *)
Definition LF : string := String "010"%char EmptyString.

(** The double quote. *)
Definition QUOTE : string := String "034"%char EmptyString.

(** [!s] for a string that may be [undefined]. *)
Definition falsy (s : option string) : bool :=
  match s with
  | None => true
  | Some s => String.eqb s ""
  end.

(** [${s}] in a template literal. *)
Definition interpolate (s : option string) : string :=
  match s with
  | None => "undefined"
  | Some s => s
  end.

(** [a !== b] on strings. *)
Definition strict_ne (a b : string) : bool := negb (String.eqb a b).

(** [Math.round(DateTime.utc().toSeconds())] of a time in milliseconds:
    the nearest integer, a half rounding up. *)
Definition round_seconds (ms : Z) : Z := (ms + 500) / 1000.

(** [DateTime#plus({seconds})]. *)
Definition plus_seconds (ms seconds : Z) : Z := ms + seconds * 1000.

(** ** Firestore collections *)

(** The documents of a collection are the paths one slash-free, non-empty
    segment below the collection path. *)
Definition in_collection (collection path : string) : bool :=
  let stem := collection +:+ "/" in
  let id := substring (String.length stem)
                      (String.length path - String.length stem) path in
  String.prefix stem path && negb (String.eqb id "") &&
  match index 0 "/" id with
  | None => true
  | Some _ => false
  end.

(** [collection.where('expirationTimestamp', '<=', cutoff)] on one
    document. *)
Definition expired_at (cutoff : Z) (d : ExchangeSessionStoredInFirestore)
  : bool :=
  match stored_expirationTimestamp d with
  | None => false
  | Some t => t <=? cutoff
  end.

(** The paths [querySnapshot.docs] holds. *)
Definition expired_docs (collection : string) (cutoff : Z)
    (db : gmap string ExchangeSessionStoredInFirestore) : list string :=
  (map_to_list
     (filter (fun kd : string * ExchangeSessionStoredInFirestore =>
                in_collection collection kd.1 && expired_at cutoff kd.2 = true)
             db)).*1.

Definition query_expired (collection : string) (cutoff : Z) : M (list string) :=
  fun w => (expired_docs collection cutoff (firestore w), w).

(** [Promise.all(docs.map(doc => doc.ref.delete()))]. *)
Definition delete_all (paths : list string) : M unit :=
  with_firestore (fun db => foldr delete db paths).

(** ** Settings *)

(** What a function hands back: a value, or an [Error] thrown. *)
Inductive Completion (A : Type) :=
| Returned (value : A)
| Thrown (message : string).
Arguments Returned {A} value.
Arguments Thrown {A} message.

(** The [exchange1c] field of the settings document: every attribute may
    be missing. *)
Record LoadedSettings := {
  loaded_username : option string;
  loaded_password : option string;
  loaded_zip : option bool;
  loaded_fileSizeLimit : option Z;
  loaded_sessionDurationSeconds : option Z;
  loaded_sessionIdCookieName : option string;
  loaded_csrfProtection : option bool;
  loaded_csrfTokenName : option string;
  loaded_sessionsStoragePath : option string
}.

(** One round of the [Object.entries(loadedSettings).forEach] loop: the
    loaded value replaces the default unless it is [undefined], [null] or
    the empty string. *)
Definition merged {A} (default : A) (loaded : option A) : A :=
  match loaded with
  | Some v => v
  | None => default
  end.

Definition merged_string (default : string) (loaded : option string) : string :=
  match loaded with
  | Some v => if String.eqb v "" then default else v
  | None => default
  end.

(** [Exchange1c.getSettings], given the document it reads. *)
Definition getSettings (settingsPath : string) (loadedSettings : LoadedSettings)
  : Completion Settings :=
  let settings :=
    {| credentials :=
         {| username := merged_string "" (loaded_username loadedSettings);
            password := merged_string "" (loaded_password loadedSettings) |};
       zip := merged false (loaded_zip loadedSettings);
       fileSizeLimit :=
         merged (9 * 1024 * 1024) (loaded_fileSizeLimit loadedSettings);
       sessionDurationSeconds :=
         merged (60 * 60) (loaded_sessionDurationSeconds loadedSettings);
       sessionIdCookieName :=
         merged_string "sessionId" (loaded_sessionIdCookieName loadedSettings);
       csrfProtection := merged false (loaded_csrfProtection loadedSettings);
       csrfTokenName :=
         merged_string "csrfToken" (loaded_csrfTokenName loadedSettings);
       sessionsStoragePath :=
         merged_string (settingsPath +:+ "/exchange1cSessions")
                       (loaded_sessionsStoragePath loadedSettings) |} in
  if falsy (Some (username settings)) || falsy (Some (password settings))
  then Thrown "1C exchange settings 'username' and/or 'password' not set"
  else Returned settings.

(** ** The class *)

(** The instance fields the methods read. *)
Record Exchange1c := {
  settings : Settings;
  exchangeSessionDurationSeconds : Z
}.

(** The constructor, with the field initialiser
    [exchangeSessionDurationSeconds = 3600]. *)
Definition new_Exchange1c (settings : Settings) : Exchange1c :=
  {| settings := settings; exchangeSessionDurationSeconds := 3600 |}.

(** [Exchange1c.create]. *)
Definition create (settingsPath : string) (loadedSettings : LoadedSettings)
  : Completion Exchange1c :=
  match getSettings settingsPath loadedSettings with
  | Returned settings => Returned (new_Exchange1c settings)
  | Thrown message => Thrown message
  end.

Section Methods.

Variable ext : Imports.

(** [result(...lines)]. *)
Definition result (lines : list string) : string := String.concat LF lines.

(** [failureResult(message?)]. *)
Definition failureResult (message : option string) : M string :=
  console_error message >>
  ret (result ["failure"; default "" message]).

(** [saveToStorage]. *)
Definition saveToStorage (bucketName folder timestamp fileName : string)
    (data : Buffer) : M unit :=
  let remotePath :=
    posix_join ext folder
      (if String.eqb timestamp "" then fileName
       else timestamp +:+ "_" +:+ fileName) in
  console_log "Uploading file to Google Cloud storage" >>
  storage_write {| bucketName := bucketName; remotePath := remotePath;
                   data := data |} >>
  console_log ("Uploaded to: " +:+ bucketName +:+ "/" +:+ remotePath).

(** [getRequestSessionInfo]. *)
Definition getRequestSessionInfo (this : Exchange1c) (request : Request)
  : M RequestSessionInfo :=
  console_put (LogRequest request) >>
  let sessionId :=
    if falsy (cookieHeader request) then Some ""
    else cookie_parse ext (default "" (cookieHeader request))
           !! sessionIdCookieName (settings this) in
  ret {| sessionId := sessionId;
         csrfToken := if falsy (query request !! "sessid") then ""
                      else default "" (query request !! "sessid") |}.

(** [getBasicCredentials]. *)
Definition getBasicCredentials (request : Request) : BasicCredentials :=
  match basicAuth request with
  | Some (name, pass) => {| username := name; password := pass |}
  | None => {| username := ""; password := "" |}
  end.

(** The path of the session document with the given id. *)
Definition session_path (this : Exchange1c) (sessionId : string) : string :=
  sessionsStoragePath (settings this) +:+ "/" +:+ sessionId.

(** [loadSession]. *)
Definition loadSession (this : Exchange1c) (sessionId : option string)
  : M (option ExchangeSession) :=
  if falsy sessionId then ret None
  else
    let path := session_path this (default "" sessionId) in
    let* doc := doc_get path in
    match doc with
    | None => ret None
    | Some storedSession =>
        match stored_expirationTimestamp storedSession with
        | None => doc_delete path >> ret None
        | Some expiration =>
            let* now := utc in
            if expiration <=? now then doc_delete path >> ret None
            else ret (Some {| es_sessionId := stored_sessionId storedSession;
                              es_csrfToken := stored_csrfToken storedSession;
                              expirationTimestamp := expiration |})
        end
    end.

(** [deleteExpiredSessions], in its three steps: the cutoff is read when
    the query is built, the query is answered, the documents found are
    deleted. *)
Definition sweep_query (this : Exchange1c) (cutoff : Z) : M (list string) :=
  query_expired (sessionsStoragePath (settings this)) cutoff.

Definition sweep_delete (docs : list string) : M unit :=
  match docs with
  | [] => ret tt
  | _ => delete_all docs
  end.

Definition deleteExpiredSessions (this : Exchange1c) : M unit :=
  let* cutoff := utc in
  let* docs := sweep_query this cutoff in
  sweep_delete docs.

(** [saveSession]. *)
Definition saveSession (this : Exchange1c) (session : ExchangeSession)
  : M unit :=
  doc_set (session_path this (es_sessionId session))
          {| stored_sessionId := es_sessionId session;
             stored_csrfToken := es_csrfToken session;
             stored_expirationTimestamp := Some (expirationTimestamp session) |}.

(** [validateRequestSessionInfo]; the result object is its two fields. *)
Definition validateRequestSessionInfo (this : Exchange1c)
    (requestSessionInfo : RequestSessionInfo) : M (bool * option string) :=
  console_put (LogSessionInfo requestSessionInfo) >>
  let* storedSession := loadSession this (sessionId requestSessionInfo) in
  match storedSession with
  | None =>
      ret (false,
           Some "No active session found. Use 'mode=checkauth' to start a new session.")
  | Some storedSession =>
      if csrfProtection (settings this) &&
         strict_ne (csrfToken requestSessionInfo) (es_csrfToken storedSession)
      then ret (false, Some "Invalid CSRF token.")
      else ret (true, None)
  end.

(** [await Promise.all([this.deleteExpiredSessions(),
    this.saveSession(session)])]: both calls run to their first [await]
    in program order, then the scheduler picks the order of the
    operations in flight. *)
Definition sweep_and_save (this : Exchange1c) (session : ExchangeSession)
  : M unit :=
  let* cutoff := utc in
  let* order := scheduled in
  match order with
  | QueryDeleteSave =>
      let* docs := sweep_query this cutoff in
      sweep_delete docs >> saveSession this session
  | QuerySaveDelete =>
      let* docs := sweep_query this cutoff in
      saveSession this session >> sweep_delete docs
  | SaveQueryDelete =>
      saveSession this session >>
      let* docs := sweep_query this cutoff in
      sweep_delete docs
  end.

(** [checkauth], step A. *)
Definition checkauth (this : Exchange1c) (credentials : BasicCredentials)
  : M string :=
  if strict_ne (username credentials) (username (settings this)) ||
     strict_ne (password credentials) (password (settings this))
  then failureResult (Some "Unauthorized")
  else
    let* sessionId := uuidv4 in
    let* csrfToken := uuidv4 in
    let* issued := utc in
    let session :=
      {| es_sessionId := sessionId;
         es_csrfToken := csrfToken;
         expirationTimestamp :=
           plus_seconds issued (exchangeSessionDurationSeconds this) |} in
    sweep_and_save this session >>
    let* now := utc in
    ret (result ["success";
                 sessionIdCookieName (settings this);
                 es_sessionId session;
                 csrfTokenName (settings this) +:+ "=" +:+ es_csrfToken session;
                 "timestamp=" +:+ pretty (round_seconds now)]).

(** [init], step B. *)
Definition init (this : Exchange1c) : M string :=
  ret (result ["zip=" +:+ (if zip (settings this) then "yes" else "no");
               "file_limit=" +:+ pretty (fileSizeLimit (settings this))]).

(** [file], step C. *)
Definition file (this : Exchange1c) (filename : option string)
    (requestBody : option Buffer) : M string :=
  if falsy filename then failureResult (Some "Filename is empty.")
  else
    let filename := default "" filename in
    console_log ("filename: " +:+ filename) >>
    match requestBody with
    | None => failureResult (Some "Request body is undefined")
    | Some requestBody =>
        (if String.prefix "import_files" filename
         then saveToStorage "1c-exchange-files" (posix_dirname ext filename)
                "" (posix_basename ext filename) requestBody
         else
           let* now := utc in
           saveToStorage "1c-exchange-catalog" ""
             (luxon_toFormat ext now "yyyy-MM-dd_HH-mm-ss-SSSZZZ")
             filename requestBody) >>
        ret "success"
    end.

(** [fileReport], step C for reports. *)
Definition fileReport (this : Exchange1c) (filename : option string)
    (requestBody : option Buffer) : M string :=
  if falsy filename then failureResult (Some "Filename is empty.")
  else
    let filename := default "" filename in
    console_log ("filename: " +:+ filename) >>
    match requestBody with
    | None => failureResult (Some "Request body is undefined")
    | Some requestBody =>
        (if String.prefix "import_files" filename
         then saveToStorage "1c-exchange-report" (posix_dirname ext filename)
                "" (posix_basename ext filename) requestBody
         else saveToStorage "1c-exchange-report" "" "" filename requestBody) >>
        ret "success"
    end.

(** [import], step D. *)
Definition import (this : Exchange1c) (filename : option string) : M string :=
  if falsy filename then failureResult (Some "Filename is empty.")
  else
    console_log ("filename: " +:+ default "" filename) >>
    ret "success".

(** [type !== 'catalog' && type !== 'report'] on a query parameter. *)
Definition unsupported_type (type : option string) : bool :=
  match type with
  | None => true
  | Some t => strict_ne t "catalog" && strict_ne t "report"
  end.

(** [mode === name] on a query parameter. *)
Definition mode_is (mode : option string) (name : string) : bool :=
  match mode with
  | None => false
  | Some m => String.eqb m name
  end.

(** [main]. *)
Definition main (this : Exchange1c) (request : option Request)
  : M (Completion string) :=
  match request with
  | None => ret (Thrown "Cloud Function parameters.request not set.")
  | Some request =>
      let type := query request !! "type" in
      console_log ("type: " +:+ interpolate type) >>
      if unsupported_type type then
        let message :=
          "Parameter type " +:+ QUOTE +:+ interpolate type +:+ QUOTE +:+
          " is not supported. Supported parameters: catalog, report" in
        console_error (Some message) >>
        let* r := failureResult (Some message) in ret (Returned r)
      else
        let mode := query request !! "mode" in
        console_log ("mode: " +:+ interpolate mode) >>
        if mode_is mode "checkauth" then
          let* r := checkauth this (getBasicCredentials request) in
          ret (Returned r)
        else
          let* info := getRequestSessionInfo this request in
          let* sessionValidation := validateRequestSessionInfo this info in
          if negb (fst sessionValidation) then
            let* r := failureResult (snd sessionValidation) in ret (Returned r)
          else if mode_is mode "init" then
            let* r := init this in ret (Returned r)
          else
            let filename := query request !! "filename" in
            if mode_is mode "file" && mode_is type "catalog" then
              let* r := file this filename (rawBody request) in ret (Returned r)
            else if mode_is mode "file" && mode_is type "report" then
              let* r := fileReport this filename (rawBody request) in
              ret (Returned r)
            else if mode_is mode "import" then
              let* r := import this filename in ret (Returned r)
            else
              let* r := failureResult
                          (Some ("Type '" +:+ interpolate type +:+
                                 "' and mode '" +:+ interpolate mode +:+
                                 "' are not supported.")) in
              ret (Returned r)
  end.

End Methods.

(** ** An executable instance of the imports *)

Module Node.

(** Splits at every occurrence of the separator. *)
Fixpoint split_on (sep : ascii) (s : string) : list string :=
  match s with
  | EmptyString => [EmptyString]
  | String c rest =>
      if Ascii.eqb c sep then EmptyString :: split_on sep rest
      else match split_on sep rest with
           | head :: tail => String c head :: tail
           | [] => [String c EmptyString]
           end
  end.

Definition is_slash (c : ascii) : bool := Ascii.eqb c "/"%char.

Fixpoint drop_while (p : ascii -> bool) (l : list ascii) : list ascii :=
  match l with
  | c :: rest => if p c then drop_while p rest else l
  | [] => []
  end.

Fixpoint take_while (p : ascii -> bool) (l : list ascii) : list ascii :=
  match l with
  | c :: rest => if p c then c :: take_while p rest else []
  | [] => []
  end.

(** [posix.basename(path)]: the last portion of the path, trailing slashes
    ignored. *)
Definition basename (path : string) : string :=
  let backwards := drop_while is_slash (rev (list_ascii_of_string path)) in
  string_of_list_ascii
    (rev (take_while (fun c => negb (is_slash c)) backwards)).

(** [posix.dirname(path)]: the path up to the slash before its last
    portion, trailing slashes ignored; ['.'] or ['/'] when there is no
    such slash. *)
Definition dirname (path : string) : string :=
  match path with
  | EmptyString => "."
  | String first rest =>
      let backwards := drop_while is_slash (rev (list_ascii_of_string rest)) in
      match drop_while (fun c => negb (is_slash c)) backwards with
      | [] => if is_slash first then "/" else "."
      | _ :: kept =>
          match kept with
          | [] => if is_slash first then "//" else String first EmptyString
          | _ => String first (string_of_list_ascii (rev kept))
          end
      end
  end.

(** [normalizeString]: the segments that survive, innermost first. *)
Fixpoint normalize_segments (allowAboveRoot : bool) (segments : list string)
    (kept : list string) : list string :=
  match segments with
  | [] => kept
  | segment :: rest =>
      if String.eqb segment "" || String.eqb segment "."
      then normalize_segments allowAboveRoot rest kept
      else if String.eqb segment ".." then
        match kept with
        | last :: before =>
            if String.eqb last ".."
            then normalize_segments allowAboveRoot rest
                   (if allowAboveRoot then ".." :: kept else kept)
            else normalize_segments allowAboveRoot rest before
        | [] => normalize_segments allowAboveRoot rest
                  (if allowAboveRoot then [".."] else [])
        end
      else normalize_segments allowAboveRoot rest (segment :: kept)
  end.

Definition ends_with_slash (path : string) : bool :=
  match rev (list_ascii_of_string path) with
  | c :: _ => is_slash c
  | [] => false
  end.

(** [posix.normalize(path)]. *)
Definition normalize (path : string) : string :=
  match path with
  | EmptyString => "."
  | String first _ =>
      let isAbsolute := is_slash first in
      let trailingSeparator := ends_with_slash path in
      let body :=
        String.concat "/"
          (rev (normalize_segments (negb isAbsolute)
                  (split_on "/"%char path) [])) in
      if String.eqb body "" then
        if isAbsolute then "/" else if trailingSeparator then "./" else "."
      else
        let body := if trailingSeparator then body +:+ "/" else body in
        if isAbsolute then "/" +:+ body else body
  end.

(** [posix.join(a, b)]: the non-empty arguments joined by a slash, then
    normalized. *)
Definition join (a b : string) : string :=
  if String.eqb a "" then (if String.eqb b "" then "." else normalize b)
  else if String.eqb b "" then normalize a
  else normalize (a +:+ "/" +:+ b).

Definition is_space (c : ascii) : bool := Ascii.eqb c " "%char.

Definition trim (s : string) : string :=
  string_of_list_ascii
    (rev (drop_while is_space
            (rev (drop_while is_space (list_ascii_of_string s))))).

Definition parse_pair (pair : string) : option (string * string) :=
  match index 0 "=" pair with
  | None => None
  | Some i =>
      Some (trim (substring 0 i pair),
            trim (substring (S i) (String.length pair - S i) pair))
  end.

(** [parse(str)] of package cookie, for values without quotes or percent
    escapes: the pairs are separated by semicolons, a pair without [=] is
    skipped, and the first pair of a name wins. *)
Definition parse (str : string) : gmap string string :=
  foldr (fun pair jar =>
           match parse_pair pair with
           | Some (key, val) => <[key := val]> jar
           | None => jar
           end)
        ∅ (split_on ";"%char str).

(** The calendar date of a day count since the epoch (proleptic
    Gregorian): year, month, day. *)
Definition civil_from_days (days : Z) : Z * Z * Z :=
  let z := days + 719468 in
  let era := z / 146097 in
  let doe := z - era * 146097 in
  let yoe := (doe - doe / 1460 + doe / 36524 - doe / 146096) / 365 in
  let doy := doe - (365 * yoe + yoe / 4 - yoe / 100) in
  let mp := (5 * doy + 2) / 153 in
  let d := doy - (153 * mp + 2) / 5 + 1 in
  let m := if mp <? 10 then mp + 3 else mp - 9 in
  (yoe + era * 400 + (if m <=? 2 then 1 else 0), m, d).

(** A number padded with zeros on the left to the given width. *)
Definition padded (width : nat) (n : Z) : string :=
  let digits := pretty n in
  string_of_list_ascii (replicate (width - String.length digits) "0"%char)
  +:+ digits.

(** [DateTime.utc().toFormat(fmt)] for the tokens [yyyy MM dd HH mm ss SSS
    ZZZ]; every other character stands for itself. *)
Fixpoint toFormat (ms : Z) (fmt : string) : string :=
  let day := ms / 86400000 in
  let in_day := ms mod 86400000 in
  let '(y, m, d) := civil_from_days day in
  match fmt with
  | String "y" (String "y" (String "y" (String "y" rest))) =>
      padded 4 y +:+ toFormat ms rest
  | String "S" (String "S" (String "S" rest)) =>
      padded 3 (in_day mod 1000) +:+ toFormat ms rest
  | String "Z" (String "Z" (String "Z" rest)) =>
      "+0000" +:+ toFormat ms rest
  | String "M" (String "M" rest) => padded 2 m +:+ toFormat ms rest
  | String "d" (String "d" rest) => padded 2 d +:+ toFormat ms rest
  | String "H" (String "H" rest) =>
      padded 2 (in_day / 3600000) +:+ toFormat ms rest
  | String "m" (String "m" rest) =>
      padded 2 (in_day / 60000 mod 60) +:+ toFormat ms rest
  | String "s" (String "s" rest) =>
      padded 2 (in_day / 1000 mod 60) +:+ toFormat ms rest
  | String c rest => String c (toFormat ms rest)
  | EmptyString => EmptyString
  end.

Definition imports : Imports :=
  {| cookie_parse := parse;
     posix_join := join;
     posix_dirname := dirname;
     posix_basename := basename;
     luxon_toFormat := toFormat |}.

End Node.

(** ** The country list scripts

    The scripts of src/index.js and the two at the ends of
    src/First task/first.ts fetch a JSON array of countries and collect
    the [Name] of each entry.  The array the request answers with is the
    argument; the variants differ in the loop they use. *)

Module Countries.

(** An entry of [response.data]. *)
Record Country := { Name : string }.

(** [response.data.forEach(n => { list.push(n.Name); })], from an empty
    [list]. *)
Definition main_forEach (data : list Country) : list string :=
  fold_left (fun list n => list ++ [Name n]) data [].

(** [for (const i in response.data) { list.push(response.data[i].Name) }]:
    the loop runs over the indices of the array; reading [Name] off a
    missing entry throws. *)
Definition main_forIn (data : list Country) : Completion (list string) :=
  fold_left
    (fun acc i =>
       match acc with
       | Returned list =>
           match data !! i with
           | Some n => Returned (list ++ [Name n])
           | None =>
               Thrown "Cannot read properties of undefined (reading 'Name')"
           end
       | Thrown message => Thrown message
       end)
    (seq 0 (length data)) (Returned []).

(** [response.data.forEach(n => { list += n.Name; list += '\n'; })], from
    the empty string: the text [webContries] sends. *)
Definition main_text (data : list Country) : string :=
  fold_left (fun list n => (list +:+ Name n) +:+ LF) data "".

End Countries.

(** * Vocabulary of the properties *)

(** Why no session is active for a request session id: it is missing or
    empty, no document is stored for it, the stored document has expired
    by the time it is read, or the stored document carries no expiry. *)
Inductive NoActiveSession (this : Exchange1c) (w : World)
  : option string -> Prop :=
| absent_id sessionId :
    falsy sessionId = true ->
    NoActiveSession this w sessionId
| unknown_id id :
    id <> "" ->
    firestore w !! session_path this id = None ->
    NoActiveSession this w (Some id)
| expired_id id storedSession expiration :
    id <> "" ->
    firestore w !! session_path this id = Some storedSession ->
    stored_expirationTimestamp storedSession = Some expiration ->
    expiration <= clock w (ticks w) ->
    NoActiveSession this w (Some id)
| undated_id id storedSession :
    id <> "" ->
    firestore w !! session_path this id = Some storedSession ->
    stored_expirationTimestamp storedSession = None ->
    NoActiveSession this w (Some id).

(** A session is active for a request session id when a document is
    stored for it whose expiry lies after the next reading of the clock. *)
Definition ActiveSession (this : Exchange1c) (w : World)
    (sessionId : option string) (session : ExchangeSession) : Prop :=
  exists id storedSession,
    sessionId = Some id /\ id <> "" /\
    firestore w !! session_path this id = Some storedSession /\
    stored_expirationTimestamp storedSession
      = Some (expirationTimestamp session) /\
    clock w (ticks w) < expirationTimestamp session /\
    es_sessionId session = stored_sessionId storedSession /\
    es_csrfToken session = stored_csrfToken storedSession.

(** What the session lookup depends on: the store and the clock. *)
Definition store_view (w : World)
  : gmap string ExchangeSessionStoredInFirestore * (nat -> Z) * nat :=
  (firestore w, clock w, ticks w).

(** The two messages of [validateRequestSessionInfo]. *)
Definition no_active_session_error : string :=
  "No active session found. Use 'mode=checkauth' to start a new session.".

Definition invalid_csrf_token_error : string := "Invalid CSRF token.".

(** The console entry [validateRequestSessionInfo] opens with. *)
Definition is_validation (e : ConsoleEntry) : bool :=
  match e with
  | LogSessionInfo _ => true
  | _ => false
  end.

(** How many validations the console of a world records. *)
Definition validations (w : World) : nat :=
  length (List.filter is_validation (console w)).

(** A computation that runs no validation. *)
Definition quiet {A} (m : M A) : Prop :=
  forall w, validations (m w).2 = validations w.

(** The two lines [main] logs before it looks at the mode. *)
Definition announce (request : Request) : M unit :=
  console_log ("type: " +:+ interpolate (query request !! "type")) >>
  console_log ("mode: " +:+ interpolate (query request !! "mode")).

(** The session info [getRequestSessionInfo] extracts: the session id is
    the cookie named in the settings, the csrf token is the query
    parameter [sessid]. *)
Definition requestSessionInfo (ext : Imports) (this : Exchange1c)
    (request : Request) : RequestSessionInfo :=
  {| sessionId :=
       match cookieHeader request with
       | None | Some "" => Some ""
       | Some cookieString =>
           cookie_parse ext cookieString !! sessionIdCookieName (settings this)
       end;
     csrfToken := default "" (query request !! "sessid") |}.

(** The steps of [main] behind a successful validation: init, file,
    import, or the failure for an unknown mode. *)
Definition dispatch_validated (ext : Imports) (this : Exchange1c)
    (request : Request) : M (Completion string) :=
  let type := query request !! "type" in
  let mode := query request !! "mode" in
  let filename := query request !! "filename" in
  if mode_is mode "init" then
    let* r := init this in ret (Returned r)
  else if mode_is mode "file" && mode_is type "catalog" then
    let* r := file ext this filename (rawBody request) in ret (Returned r)
  else if mode_is mode "file" && mode_is type "report" then
    let* r := fileReport ext this filename (rawBody request) in ret (Returned r)
  else if mode_is mode "import" then
    let* r := import this filename in ret (Returned r)
  else
    let* r := failureResult
                (Some ("Type '" +:+ interpolate type +:+
                       "' and mode '" +:+ interpolate mode +:+
                       "' are not supported.")) in
    ret (Returned r).

(** The document [saveSession] writes for a session. *)
Definition stored (session : ExchangeSession)
  : ExchangeSessionStoredInFirestore :=
  {| stored_sessionId := es_sessionId session;
     stored_csrfToken := es_csrfToken session;
     stored_expirationTimestamp := Some (expirationTimestamp session) |}.

(** The session a successful [checkauth] builds in a world: two uuids in
    the order drawn, and the expiry counted from the time it reads. *)
Definition minted (this : Exchange1c) (w : World) : ExchangeSession :=
  {| es_sessionId := uuids w (drawn w);
     es_csrfToken := uuids w (S (drawn w));
     expirationTimestamp :=
       plus_seconds (clock w (ticks w)) (exchangeSessionDurationSeconds this) |}.

(** The world once the session is built. *)
Definition minting (w : World) : World :=
  ((let* sessionId := uuidv4 in
    let* csrfToken := uuidv4 in
    let* issued := utc in
    ret tt) w).2.

(** The format [file] asks of luxon for the timestamp prefix. *)
Definition timestamp_format : string := "yyyy-MM-dd_HH-mm-ss-SSSZZZ".

(** A loaded string attribute with the empty string read as missing. *)
Definition blank_to_missing (v : option string) : option string :=
  if falsy v then None else v.

(** A settings document with every empty string attribute removed. *)
Definition without_blanks (l : LoadedSettings) : LoadedSettings :=
  {| loaded_username := blank_to_missing (loaded_username l);
     loaded_password := blank_to_missing (loaded_password l);
     loaded_zip := loaded_zip l;
     loaded_fileSizeLimit := loaded_fileSizeLimit l;
     loaded_sessionDurationSeconds := loaded_sessionDurationSeconds l;
     loaded_sessionIdCookieName :=
       blank_to_missing (loaded_sessionIdCookieName l);
     loaded_csrfProtection := loaded_csrfProtection l;
     loaded_csrfTokenName := blank_to_missing (loaded_csrfTokenName l);
     loaded_sessionsStoragePath :=
       blank_to_missing (loaded_sessionsStoragePath l) |}.

(** What a sweep with the given cutoff leaves at a path of the store. *)
Definition swept (collection : string) (cutoff : Z) (path : string)
    (doc : option ExchangeSessionStoredInFirestore)
  : option ExchangeSessionStoredInFirestore :=
  match doc with
  | Some d =>
      if in_collection collection path && expired_at cutoff d
      then None else Some d
  | None => None
  end.

(** The verdict and the world of the validation [main] runs for a
    request. *)
Definition validated (ext : Imports) (this : Exchange1c) (request : Request)
    (w : World) : (bool * option string) * World :=
  validateRequestSessionInfo this (requestSessionInfo ext this request)
    (console_put (LogRequest request) (announce request w).2).2.

(** A text without a slash. *)
Fixpoint no_slash (s : string) : bool :=
  match s with
  | EmptyString => true
  | String c rest => negb (Node.is_slash c) && no_slash rest
  end.

(** A character other than the slash. *)
Definition not_slash (c : ascii) : bool := negb (Node.is_slash c).

(** The components the Firestore client splits a path into: the
    non-empty pieces between slashes. *)
Definition path_components (path : string) : list string :=
  List.filter (fun component => negb (String.eqb component ""))
    (Node.split_on "/"%char path).

(** The paths [firestore.doc(path)] accepts as naming a document: not
    empty, without [//], with an even number of components and at least
    two.  On any other path the call throws, before the store is
    reached; [doc_get] describes the call for the paths accepted. *)
Definition document_path (path : string) : bool :=
  negb (String.eqb path "") &&
  match index 0 "//" path with
  | None => true
  | Some _ => false
  end &&
  negb (Nat.eqb (length (path_components path)) 0) &&
  Nat.even (length (path_components path)).

(** A session id that names a document of the sessions store: it has no
    slash, so that it is one component, and the path it is looked up at
    is a document path. *)
Definition document_id (this : Exchange1c) (id : string) : bool :=
  no_slash id && document_path (session_path this id).

(** Why the lookup of a request session id finds no active session, for
    the ids the lookup does not throw on: the id is missing or empty, or
    it names a document of the sessions store and that document is not
    stored, has expired by the time it is read, or carries no expiry. *)
Inductive Unresolved (this : Exchange1c) (w : World)
  : option string -> Prop :=
| unresolved_absent sessionId :
    falsy sessionId = true ->
    Unresolved this w sessionId
| unresolved_unknown id :
    id <> "" ->
    document_id this id = true ->
    firestore w !! session_path this id = None ->
    Unresolved this w (Some id)
| unresolved_expired id storedSession expiration :
    id <> "" ->
    document_id this id = true ->
    firestore w !! session_path this id = Some storedSession ->
    stored_expirationTimestamp storedSession = Some expiration ->
    expiration <= clock w (ticks w) ->
    Unresolved this w (Some id)
| unresolved_undated id storedSession :
    id <> "" ->
    document_id this id = true ->
    firestore w !! session_path this id = Some storedSession ->
    stored_expirationTimestamp storedSession = None ->
    Unresolved this w (Some id).

(** A component [posix.normalize] keeps as it is. *)
Definition plain_component (component : string) : bool :=
  negb (String.eqb component "") &&
  negb (String.eqb component ".") &&
  negb (String.eqb component "..").

(** A plain relative path: components separated by single slashes, none
    of them empty, [.] or [..]; so the path is not empty and neither
    starts nor ends with a slash. *)
Definition plain_path (path : string) : bool :=
  forallb plain_component (Node.split_on "/"%char path).

(** The imports with the functions of path.posix as [Node] has them,
    whatever the cookie parser and the date formatter. *)
Definition posix_imports (parse : string -> gmap string string)
    (format : Z -> string -> string) : Imports :=
  {| cookie_parse := parse;
     posix_join := Node.join;
     posix_dirname := Node.dirname;
     posix_basename := Node.basename;
     luxon_toFormat := format |}.

(** The integers a JavaScript number holds exactly, which a template
    literal prints digit by digit. *)
Definition safe_integer (n : Z) : Prop :=
  - 9007199254740991 <= n <= 9007199254740991.

(** ** Sample data *)

Module Sample.

Definition settingsPath : string := "/settings/your-site-name".

(** A settings document that sets the credentials and a two-hour session
    duration. *)
Definition loaded : LoadedSettings :=
  {| loaded_username := Some "x";
     loaded_password := Some "y";
     loaded_zip := None;
     loaded_fileSizeLimit := None;
     loaded_sessionDurationSeconds := Some 7200;
     loaded_sessionIdCookieName := None;
     loaded_csrfProtection := None;
     loaded_csrfTokenName := None;
     loaded_sessionsStoragePath := None |}.

Definition site : Settings :=
  {| credentials := {| username := "x"; password := "y" |};
     zip := false;
     fileSizeLimit := 9437184;
     sessionDurationSeconds := 7200;
     sessionIdCookieName := "sessionId";
     csrfProtection := false;
     csrfTokenName := "csrfToken";
     sessionsStoragePath := "/settings/your-site-name/exchange1cSessions" |}.

(** The same site with CSRF protection switched on. *)
Definition guarded : Settings :=
  {| credentials := site;
     zip := zip site;
     fileSizeLimit := fileSizeLimit site;
     sessionDurationSeconds := sessionDurationSeconds site;
     sessionIdCookieName := sessionIdCookieName site;
     csrfProtection := true;
     csrfTokenName := csrfTokenName site;
     sessionsStoragePath := sessionsStoragePath site |}.

Definition this : Exchange1c := new_Exchange1c site.
Definition this_guarded : Exchange1c := new_Exchange1c guarded.

(** 2023-11-14 22:13:20 UTC. *)
Definition epoch : Z := 1700000000000.

(** An empty store; the clock advances one millisecond per reading. *)
Definition blank : World :=
  {| firestore := ∅;
     uploads := [];
     console := [];
     clock := fun n => epoch + Z.of_nat n;
     ticks := 0;
     uuids := fun n => "uuid-" +:+ pretty n;
     drawn := 0;
     race := fun _ => QuerySaveDelete |}.

Definition live : ExchangeSessionStoredInFirestore :=
  {| stored_sessionId := "live";
     stored_csrfToken := "token";
     stored_expirationTimestamp := Some (epoch + 60000) |}.

Definition stale : ExchangeSessionStoredInFirestore :=
  {| stored_sessionId := "stale";
     stored_csrfToken := "old-token";
     stored_expirationTimestamp := Some (epoch - 1) |}.

(** A store with one session still running and one past its expiry. *)
Definition stocked : World :=
  {| firestore :=
       <[session_path this "live" := live]>
         (<[session_path this "stale" := stale]> ∅);
     uploads := [];
     console := [];
     clock := clock blank;
     ticks := 0;
     uuids := uuids blank;
     drawn := 0;
     race := race blank |}.

Definition body : Buffer := [x3c; x61; x2f; x3e].

(** A request with the given query string and cookie header. *)
Definition request (parameters : list (string * string))
    (cookie : option string) (payload : option Buffer) : Request :=
  {| query := list_to_map parameters;
     cookieHeader := cookie;
     basicAuth := None;
     rawBody := payload |}.

End Sample.

(** * Properties *)

(** ** The session store *)

Ltac run :=
  unfold bind, ret, console_log, console_error, console_put, doc_get,
    doc_delete, doc_set, with_firestore, utc, uuidv4, scheduled,
    storage_write, query_expired, delete_all; simpl.

(** A non-empty id is not falsy, and conversely. *)
Lemma falsy_Some (id : string) : falsy (Some id) = false <-> id <> "".
Proof.
  simpl. destruct (String.eqb_spec id ""); split; congruence.
Qed.

Lemma loadSession_falsy this sessionId w :
  falsy sessionId = true -> loadSession this sessionId w = (None, w).
Proof. intros H. unfold loadSession. now rewrite H. Qed.

Lemma loadSession_unknown this id w :
  id <> "" ->
  firestore w !! session_path this id = None ->
  loadSession this (Some id) w = (None, w).
Proof.
  intros Hid Hdoc. apply falsy_Some in Hid.
  unfold loadSession. rewrite Hid. run. now rewrite Hdoc.
Qed.

Lemma loadSession_expired this id storedSession expiration w :
  id <> "" ->
  firestore w !! session_path this id = Some storedSession ->
  stored_expirationTimestamp storedSession = Some expiration ->
  expiration <= clock w (ticks w) ->
  (loadSession this (Some id) w).1 = None /\
  firestore (loadSession this (Some id) w).2
    = delete (session_path this id) (firestore w).
Proof.
  intros Hid Hdoc Hexp Hle. apply falsy_Some in Hid.
  unfold loadSession. rewrite Hid. run. rewrite Hdoc, Hexp. run.
  destruct (Z.leb_spec expiration (clock w (ticks w))); [easy | lia].
Qed.

Lemma loadSession_undated this id storedSession w :
  id <> "" ->
  firestore w !! session_path this id = Some storedSession ->
  stored_expirationTimestamp storedSession = None ->
  (loadSession this (Some id) w).1 = None /\
  firestore (loadSession this (Some id) w).2
    = delete (session_path this id) (firestore w).
Proof.
  intros Hid Hdoc Hexp. apply falsy_Some in Hid.
  unfold loadSession. rewrite Hid. run. now rewrite Hdoc, Hexp.
Qed.

Lemma loadSession_active this sessionId session w :
  ActiveSession this w sessionId session ->
  (loadSession this sessionId w).1 = Some session.
Proof.
  intros (id & d & -> & Hid & Hdoc & Hexp & Hlt & Hsid & Hcsrf).
  apply falsy_Some in Hid.
  unfold loadSession. rewrite Hid. run. rewrite Hdoc, Hexp. run.
  destruct (Z.leb_spec (expirationTimestamp session) (clock w (ticks w)));
    [lia |].
  simpl. destruct session; simpl in *. now subst.
Qed.

(** Every lookup ends in one of the two situations. *)
Lemma loadSession_cases this sessionId w :
  match (loadSession this sessionId w).1 with
  | Some session => ActiveSession this w sessionId session
  | None => NoActiveSession this w sessionId
  end.
Proof.
  destruct (falsy sessionId) eqn:Hf.
  - rewrite loadSession_falsy by assumption. now apply absent_id.
  - destruct sessionId as [id |]; [| discriminate].
    pose proof (proj1 (falsy_Some id) Hf) as Hid.
    destruct (firestore w !! session_path this id) as [d |] eqn:Hdoc.
    + destruct (stored_expirationTimestamp d) as [t |] eqn:Hexp.
      * destruct (Z.le_gt_cases t (clock w (ticks w))) as [Hle | Hlt].
        -- destruct (loadSession_expired this id d t w) as [-> _]; auto.
           eapply expired_id; eauto.
        -- assert (ActiveSession this w (Some id)
                     {| es_sessionId := stored_sessionId d;
                        es_csrfToken := stored_csrfToken d;
                        expirationTimestamp := t |}) as Hact.
           { exists id, d. simpl. repeat split; auto. }
           rewrite (loadSession_active _ _ _ _ Hact). exact Hact.
      * destruct (loadSession_undated this id d w) as [-> _]; auto.
        eapply undated_id; eauto.
    + rewrite loadSession_unknown by assumption. now apply unknown_id.
Qed.

Lemma loadSession_inactive this sessionId w :
  NoActiveSession this w sessionId ->
  (loadSession this sessionId w).1 = None.
Proof.
  intros [sid Hf | id Hid Hdoc | id d t Hid Hdoc Hexp Hle | id d Hid Hdoc Hexp].
  - now rewrite loadSession_falsy.
  - now rewrite loadSession_unknown.
  - now destruct (loadSession_expired this id d t w) as [-> _].
  - now destruct (loadSession_undated this id d w) as [-> _].
Qed.

(** The lookup reads the store and the clock only: the console, the
    uploads and the uuid source do not matter to it and are not touched. *)
Lemma loadSession_frame this sessionId w :
  uploads (loadSession this sessionId w).2 = uploads w /\
  console (loadSession this sessionId w).2 = console w /\
  drawn (loadSession this sessionId w).2 = drawn w.
Proof.
  unfold loadSession. destruct (falsy sessionId); [easy |]. run.
  destruct (firestore w !! _) as [d |]; [| easy].
  destruct (stored_expirationTimestamp d) as [t |]; [| easy]. run.
  now destruct (t <=? clock w (ticks w)).
Qed.

Lemma loadSession_store_view this sessionId w w' :
  store_view w = store_view w' ->
  (loadSession this sessionId w).1 = (loadSession this sessionId w').1 /\
  store_view (loadSession this sessionId w).2
    = store_view (loadSession this sessionId w').2.
Proof.
  unfold store_view. intros [= Hf Hc Ht].
  unfold loadSession. destruct (falsy sessionId).
  - simpl. now rewrite Hf, Hc, Ht.
  - run. rewrite Hf.
    destruct (firestore w' !! _) as [d |]; simpl; [| now rewrite Hf, Hc, Ht].
    destruct (stored_expirationTimestamp d) as [t |]; run;
      [| now rewrite Hf, Hc, Ht].
    rewrite Hc, Ht. destruct (t <=? clock w' (ticks w')); simpl;
      now rewrite Hf.
Qed.

Lemma NoActiveSession_store_view this sessionId w w' :
  store_view w = store_view w' ->
  NoActiveSession this w sessionId -> NoActiveSession this w' sessionId.
Proof.
  intros Hv Hno. apply loadSession_inactive in Hno.
  destruct (loadSession_store_view this sessionId w w' Hv) as [Heq _].
  pose proof (loadSession_cases this sessionId w') as Hcases.
  rewrite <- Heq, Hno in Hcases. exact Hcases.
Qed.

(** ** Request validation *)

(** The verdict of [validateRequestSessionInfo] is decided by the lookup
    of the request's session id in the world it is called in. *)
Lemma validateRequestSessionInfo_verdict this info w :
  (validateRequestSessionInfo this info w).1 =
  match (loadSession this (sessionId info) w).1 with
  | None => (false, Some no_active_session_error)
  | Some storedSession =>
      if csrfProtection (settings this) &&
         strict_ne (csrfToken info) (es_csrfToken storedSession)
      then (false, Some invalid_csrf_token_error)
      else (true, None)
  end.
Proof.
  unfold validateRequestSessionInfo, bind at 1 2.
  destruct (console_put (LogSessionInfo info) w) as [[] w1] eqn:Hlog.
  assert (store_view w1 = store_view w) as Hv.
  { unfold console_put in Hlog. now injection Hlog as <-. }
  destruct (loadSession_store_view this (sessionId info) w1 w Hv) as [<- _].
  destruct (loadSession this (sessionId info) w1) as [[s |] w2]; simpl.
  - now destruct (csrfProtection (settings this) && _).
  - reflexivity.
Qed.

(** Validation writes nothing to Cloud Storage and draws no uuid. *)
Lemma validateRequestSessionInfo_frame this info w :
  uploads (validateRequestSessionInfo this info w).2 = uploads w /\
  drawn (validateRequestSessionInfo this info w).2 = drawn w /\
  console (validateRequestSessionInfo this info w).2
    = console w ++ [LogSessionInfo info].
Proof.
  unfold validateRequestSessionInfo, bind at 1 2 3 4 5 6.
  destruct (console_put (LogSessionInfo info) w) as [[] w1] eqn:Hlog.
  unfold console_put in Hlog. injection Hlog as <-.
  match goal with |- context [loadSession this ?s ?w1] =>
    destruct (loadSession_frame this s w1) as (Hu & Hc & Hd);
    destruct (loadSession this s w1) as [[session |] w2]
  end; simpl in *.
  - now destruct (csrfProtection (settings this) && _).
  - easy.
Qed.

(** ** Counting validations

    [validateRequestSessionInfo] starts by logging the session info it
    was given, and nothing else logs one: the number of such entries on
    the console counts the validations that ran. *)

Lemma quiet_ret {A} (a : A) : quiet (ret a).
Proof. easy. Qed.

Lemma quiet_bind {A B} (m : M A) (k : A -> M B) :
  quiet m -> (forall a, quiet (k a)) -> quiet (bind m k).
Proof.
  intros Hm Hk w. unfold bind. specialize (Hm w).
  destruct (m w) as [a w1]. simpl in Hm. now rewrite Hk.
Qed.

Lemma quiet_console_put e : is_validation e = false -> quiet (console_put e).
Proof.
  intros He w. unfold validations. simpl.
  rewrite List.filter_app, length_app. simpl. rewrite He. simpl. lia.
Qed.

Lemma quiet_console_log text : quiet (console_log text).
Proof. now apply quiet_console_put. Qed.

Lemma quiet_console_error message : quiet (console_error message).
Proof. now apply quiet_console_put. Qed.

Lemma quiet_utc : quiet utc.
Proof. easy. Qed.

Lemma quiet_uuidv4 : quiet uuidv4.
Proof. easy. Qed.

Lemma quiet_scheduled : quiet scheduled.
Proof. easy. Qed.

Lemma quiet_with_firestore f : quiet (with_firestore f).
Proof. easy. Qed.

Lemma quiet_doc_get path : quiet (doc_get path).
Proof. easy. Qed.

Lemma quiet_query_expired collection cutoff :
  quiet (query_expired collection cutoff).
Proof. easy. Qed.

Lemma quiet_storage_write u : quiet (storage_write u).
Proof. easy. Qed.

Create HintDb quiet.
#[export] Hint Resolve quiet_ret quiet_console_log quiet_console_error
  quiet_utc quiet_uuidv4 quiet_scheduled quiet_with_firestore quiet_doc_get
  quiet_query_expired quiet_storage_write : quiet.

(** Splits a computation along its binds and branches. *)
Ltac quiet_steps :=
  repeat first
    [ progress auto with quiet
    | apply quiet_bind; [| intros ?]
    | match goal with
      | |- quiet (if ?b then _ else _) => destruct b
      | |- quiet (match ?x with _ => _ end) => destruct x
      end ].

Lemma quiet_failureResult message : quiet (failureResult message).
Proof. unfold failureResult. quiet_steps. Qed.

Lemma quiet_saveToStorage ext bucketName folder timestamp fileName data :
  quiet (saveToStorage ext bucketName folder timestamp fileName data).
Proof. unfold saveToStorage. quiet_steps. Qed.

Lemma quiet_getRequestSessionInfo ext this request :
  quiet (getRequestSessionInfo ext this request).
Proof.
  unfold getRequestSessionInfo. apply quiet_bind; [| intros ?; quiet_steps].
  now apply quiet_console_put.
Qed.

Lemma quiet_sweep_and_save this session : quiet (sweep_and_save this session).
Proof.
  unfold sweep_and_save, sweep_query, sweep_delete, saveSession, doc_set,
    delete_all.
  quiet_steps.
Qed.

Lemma quiet_checkauth this credentials : quiet (checkauth this credentials).
Proof.
  unfold checkauth.
  destruct (_ || _); [apply quiet_failureResult |].
  pose proof quiet_sweep_and_save. quiet_steps.
Qed.

Lemma quiet_init this : quiet (init this).
Proof. unfold init. quiet_steps. Qed.

Lemma quiet_file ext this filename requestBody :
  quiet (file ext this filename requestBody).
Proof.
  pose proof quiet_failureResult. pose proof (quiet_saveToStorage ext).
  unfold file. quiet_steps.
Qed.

Lemma quiet_fileReport ext this filename requestBody :
  quiet (fileReport ext this filename requestBody).
Proof.
  pose proof quiet_failureResult. pose proof (quiet_saveToStorage ext).
  unfold fileReport. quiet_steps.
Qed.

Lemma quiet_import this filename : quiet (import this filename).
Proof. pose proof quiet_failureResult. unfold import. quiet_steps. Qed.

#[export] Hint Resolve quiet_failureResult quiet_saveToStorage
  quiet_getRequestSessionInfo quiet_sweep_and_save quiet_checkauth
  quiet_init quiet_file quiet_fileReport quiet_import : quiet.

Lemma validateRequestSessionInfo_counted this info w :
  validations (validateRequestSessionInfo this info w).2 = S (validations w).
Proof.
  unfold validations.
  destruct (validateRequestSessionInfo_frame this info w) as (_ & _ & ->).
  rewrite List.filter_app, length_app. simpl. lia.
Qed.

(** ** The dispatcher *)

Lemma requestSessionInfo_eq ext this request :
  {| sessionId :=
       if falsy (cookieHeader request) then Some ""
       else cookie_parse ext (default "" (cookieHeader request))
              !! sessionIdCookieName (settings this);
     csrfToken := if falsy (query request !! "sessid") then ""
                  else default "" (query request !! "sessid") |}
  = requestSessionInfo ext this request.
Proof.
  unfold requestSessionInfo. f_equal.
  - destruct (cookieHeader request) as [[| c s] |]; reflexivity.
  - destruct (query request !! "sessid") as [[| c s] |]; reflexivity.
Qed.

Lemma getRequestSessionInfo_run ext this request w :
  getRequestSessionInfo ext this request w
  = (requestSessionInfo ext this request,
     (console_put (LogRequest request) w).2).
Proof.
  unfold getRequestSessionInfo. run. now rewrite requestSessionInfo_eq.
Qed.

Lemma main_checkauth ext this request w :
  unsupported_type (query request !! "type") = false ->
  mode_is (query request !! "mode") "checkauth" = true ->
  main ext this (Some request) w
  = (let* r := checkauth this (getBasicCredentials request) in
     ret (Returned r)) (announce request w).2.
Proof.
  intros Htype Hmode. unfold main, announce. cbv zeta.
  rewrite Htype, Hmode. reflexivity.
Qed.

Lemma main_validated ext this request w :
  unsupported_type (query request !! "type") = false ->
  mode_is (query request !! "mode") "checkauth" = false ->
  main ext this (Some request) w
  = (let* sessionValidation :=
       validateRequestSessionInfo this (requestSessionInfo ext this request) in
     if negb sessionValidation.1
     then let* r := failureResult sessionValidation.2 in ret (Returned r)
     else dispatch_validated ext this request)
      (console_put (LogRequest request) (announce request w).2).2.
Proof.
  intros Htype Hmode. unfold main, announce, dispatch_validated. cbv zeta.
  rewrite Htype, Hmode.
  unfold bind at 1 2 3. simpl.
  rewrite requestSessionInfo_eq.
  unfold bind at 1 8.
  match goal with |- context [validateRequestSessionInfo ?t ?i ?w1] =>
    destruct (validateRequestSessionInfo t i w1) as [[ok error] w3]
  end.
  simpl. destruct ok; simpl; [| reflexivity].
  destruct (mode_is _ "init"); [reflexivity |].
  destruct (mode_is _ "file" && mode_is _ "catalog"); [reflexivity |].
  destruct (mode_is _ "file" && mode_is _ "report"); reflexivity.
Qed.

Lemma quiet_announce request : quiet (announce request).
Proof. unfold announce. quiet_steps. Qed.

Lemma quiet_dispatch_validated ext this request :
  quiet (dispatch_validated ext this request).
Proof. unfold dispatch_validated. quiet_steps. Qed.

Lemma announce_store_view request w :
  store_view (console_put (LogRequest request) (announce request w).2).2
  = store_view w.
Proof. reflexivity. Qed.

Example getSettings_sample :
  getSettings Sample.settingsPath Sample.loaded = Returned Sample.site.
Proof. reflexivity. Qed.

Example create_sample :
  create Sample.settingsPath Sample.loaded = Returned Sample.this.
Proof. reflexivity. Qed.

(** ** C4: lazy expiry *)




(** A session id with a slash in it need not name a document. *)
Example document_id_slash :
  document_id Sample.this "a/b" = false /\
  document_path (session_path Sample.this "a/b") = false /\
  document_id Sample.this "live" = true.
Proof. vm_compute. repeat split. Qed.

(** The session still running is returned as stored. *)
Example loadSession_live :
  (loadSession Sample.this (Some "live") Sample.stocked).1
  = Some {| es_sessionId := "live"; es_csrfToken := "token";
            expirationTimestamp := Sample.epoch + 60000 |}.
Proof. vm_compute. reflexivity. Qed.

(** ** C5: the csrf token check *)

(** C5.  Against an active session the csrf token is compared exactly when
    [settings.csrfProtection] is on: with protection on, a request token
    different from the stored one is rejected with "Invalid CSRF token."
    and an equal one is accepted; with protection off every request token,
    the empty one included, is accepted. *)
Theorem csrf_enforced_iff_protection this info session w :
  ActiveSession this w (sessionId info) session ->
  (csrfProtection (settings this) = true ->
   csrfToken info <> es_csrfToken session ->
   (validateRequestSessionInfo this info w).1
   = (false, Some "Invalid CSRF token.")) /\
  (csrfProtection (settings this) = true ->
   csrfToken info = es_csrfToken session ->
   (validateRequestSessionInfo this info w).1 = (true, None)) /\
  (csrfProtection (settings this) = false ->
   (validateRequestSessionInfo this info w).1 = (true, None)).
Proof.
  intros Hactive. apply loadSession_active in Hactive.
  rewrite validateRequestSessionInfo_verdict, Hactive.
  unfold strict_ne. repeat split.
  - intros -> Hne. simpl.
    destruct (String.eqb_spec (csrfToken info) (es_csrfToken session));
      [contradiction | reflexivity].
  - intros -> ->. simpl. now rewrite String.eqb_refl.
  - now intros ->.
Qed.

Lemma csrf_enforced_iff_protection_witness :
  (validateRequestSessionInfo Sample.this_guarded
     {| sessionId := Some "live"; csrfToken := "forged" |} Sample.stocked).1
  = (false, Some "Invalid CSRF token.").
Proof.
  refine (proj1 (csrf_enforced_iff_protection Sample.this_guarded
                   {| sessionId := Some "live"; csrfToken := "forged" |}
                   {| es_sessionId := "live"; es_csrfToken := "token";
                      expirationTimestamp := Sample.epoch + 60000 |}
                   Sample.stocked _) _ _).
  - exists "live", Sample.live. repeat split; try discriminate.
  - reflexivity.
  - discriminate.
Defined.

(** The same request passes once the protection is off, and the right
    token passes with the protection on. *)
Example csrf_unprotected_accepts_any :
  (validateRequestSessionInfo Sample.this
     {| sessionId := Some "live"; csrfToken := "" |} Sample.stocked).1
  = (true, None).
Proof. vm_compute. reflexivity. Qed.

Example csrf_protected_accepts_match :
  (validateRequestSessionInfo Sample.this_guarded
     {| sessionId := Some "live"; csrfToken := "token" |} Sample.stocked).1
  = (true, None).
Proof. vm_compute. reflexivity. Qed.

(** ** C2: the error for a missing session *)

(** C2, as stated, fails: where no session is active the validator's
    message is not "No active session found. Use 'checkauth' to start a
    new session.". *)
Lemma no_active_session_message_counterexample :
  ~ (forall this info w,
        NoActiveSession this w (sessionId info) ->
        (validateRequestSessionInfo this info w).1
        = (false,
           Some "No active session found. Use 'checkauth' to start a new session.")).
Proof.
  intros claim.
  specialize (claim Sample.this {| sessionId := None; csrfToken := "" |}
                Sample.blank (absent_id _ _ None eq_refl)).
  vm_compute in claim. discriminate claim.
Qed.

Lemma Unresolved_NoActiveSession this w sessionId :
  Unresolved this w sessionId -> NoActiveSession this w sessionId.
Proof.
  intros [sid Hf | id Hid _ Hdoc | id d t Hid _ Hdoc Hexp Hle
          | id d Hid _ Hdoc Hexp].
  - now apply absent_id.
  - now apply unknown_id.
  - eapply expired_id; eauto.
  - eapply undated_id; eauto.
Qed.

(** C2, amended.  For every request whose session id is missing or empty,
    or names a document of the sessions store (it has no slash and is
    looked up at a document path) that is not stored, or is stored but
    expired or without an expiry, validation returns invalid with exactly
    the message "No active session found. Use 'mode=checkauth' to start a
    new session.", and for a supported type and a mode other than
    checkauth the dispatcher returns the failure result carrying that
    message.  (For a session id that does not name a document
    [firestore.doc] throws; nothing is said of it.) *)
Theorem no_active_session_message this :
  (forall info w,
      Unresolved this w (sessionId info) ->
      (validateRequestSessionInfo this info w).1
      = (false,
         Some "No active session found. Use 'mode=checkauth' to start a new session.")) /\
  (forall ext request w,
      unsupported_type (query request !! "type") = false ->
      mode_is (query request !! "mode") "checkauth" = false ->
      Unresolved this w (sessionId (requestSessionInfo ext this request)) ->
      (main ext this (Some request) w).1
      = Returned
          ("failure" +:+ LF +:+
           "No active session found. Use 'mode=checkauth' to start a new session.")).
Proof.
  split.
  - intros info w Hno. apply Unresolved_NoActiveSession in Hno.
    rewrite validateRequestSessionInfo_verdict.
    now rewrite (loadSession_inactive _ _ _ Hno).
  - intros ext request w Htype Hmode Hno.
    apply Unresolved_NoActiveSession in Hno.
    rewrite main_validated by assumption.
    eapply NoActiveSession_store_view in Hno;
      [| symmetry; apply (announce_store_view request w)].
    apply loadSession_inactive in Hno.
    unfold bind at 1.
    match goal with |- context [validateRequestSessionInfo ?t ?i ?w1] =>
      pose proof (validateRequestSessionInfo_verdict t i w1) as Hverdict;
      rewrite Hno in Hverdict;
      destruct (validateRequestSessionInfo t i w1) as [verdict w3]
    end.
    simpl in Hverdict. subst verdict. reflexivity.
Qed.

Lemma no_active_session_message_witness :
  (main Node.imports Sample.this
     (Some (Sample.request [("type", "catalog"); ("mode", "init")]
              (Some "sessionId=stale") None))
     Sample.stocked).1
  = Returned
      ("failure" +:+ LF +:+
       "No active session found. Use 'mode=checkauth' to start a new session.") /\
  (main Node.imports Sample.this
     (Some (Sample.request [("type", "catalog"); ("mode", "init")]
              (Some "sessionId=nobody") None))
     Sample.stocked).1
  = Returned
      ("failure" +:+ LF +:+
       "No active session found. Use 'mode=checkauth' to start a new session.").
Proof.
  split.
  - apply (proj2 (no_active_session_message Sample.this)).
    + reflexivity.
    + reflexivity.
    + apply (unresolved_expired Sample.this Sample.stocked "stale"
               Sample.stale (Sample.epoch - 1)).
      * discriminate.
      * vm_compute. reflexivity.
      * vm_compute. reflexivity.
      * reflexivity.
      * vm_compute. discriminate.
  - apply (proj2 (no_active_session_message Sample.this)).
    + reflexivity.
    + reflexivity.
    + apply (unresolved_unknown Sample.this Sample.stocked "nobody").
      * discriminate.
      * vm_compute. reflexivity.
      * vm_compute. reflexivity.
Defined.

(** ** C6: rejected credentials *)

Lemma credentials_differ (given expected : BasicCredentials) :
  given <> expected ->
  strict_ne (username given) (username expected) ||
  strict_ne (password given) (password expected) = true.
Proof.
  intros Hne. unfold strict_ne.
  destruct (String.eqb_spec (username given) (username expected)) as [Hu |];
    [| reflexivity].
  destruct (String.eqb_spec (password given) (password expected)) as [Hp |];
    [| reflexivity].
  destruct given, expected. simpl in *. congruence.
Qed.

(** C6.  For every credentials pair that is not exactly the configured
    username and password, [checkauth] returns the two lines "failure" and
    "Unauthorized"; the session store is left as it was, no uuid is drawn
    and nothing but the error line on the console changes. *)
Theorem checkauth_unauthorized this (given : BasicCredentials) (w : World) :
  given <> credentials (settings this) ->
  (checkauth this given w).1 = "failure" +:+ LF +:+ "Unauthorized" /\
  firestore (checkauth this given w).2 = firestore w /\
  drawn (checkauth this given w).2 = drawn w /\
  (checkauth this given w).2 = (console_error (Some "Unauthorized") w).2.
Proof.
  intros Hne. apply credentials_differ in Hne.
  unfold checkauth. rewrite Hne. repeat split.
Qed.

Lemma checkauth_unauthorized_witness :
  (checkauth Sample.this {| username := ""; password := "" |}
     Sample.stocked).1
  = "failure" +:+ LF +:+ "Unauthorized" /\
  firestore
    (checkauth Sample.this {| username := ""; password := "" |}
       Sample.stocked).2
  = firestore Sample.stocked.
Proof.
  destruct (checkauth_unauthorized Sample.this
              {| username := ""; password := "" |} Sample.stocked)
    as (Hresult & Hstore & _).
  - discriminate.
  - split; [exact Hresult | exact Hstore].
Defined.

(** The settings loader refuses an empty username or password, so empty
    credentials never match loaded settings. *)
Lemma getSettings_credentials_set settingsPath loadedSettings settings :
  getSettings settingsPath loadedSettings = Returned settings ->
  username settings <> "" /\ password settings <> "".
Proof.
  unfold getSettings.
  match goal with |- context [if ?b then _ else _] => destruct b eqn:Hset end;
    [discriminate |].
  intros [= <-]. apply orb_false_elim in Hset as [Hu Hp].
  split; now apply falsy_Some.
Qed.

Example checkauth_wrong_password :
  (checkauth Sample.this {| username := "x"; password := "z" |}
     Sample.blank).1
  = "failure" +:+ LF +:+ "Unauthorized".
Proof. reflexivity. Qed.

(** ** C3: which modes are validated *)

(** C3.  For a request with a supported type: in mode checkauth the
    dispatcher hands the basic-auth credentials to [checkauth] at once
    and no validation runs; in every other mode it first runs exactly one
    validation, on the session id of the cookie named in the settings and
    the csrf token of the query parameter sessid, and when that
    validation is invalid the dispatcher stops there with the failure
    result for the validator's error, so that init, file and import are
    not reached. *)
Theorem main_validates_unless_checkauth ext this request w :
  unsupported_type (query request !! "type") = false ->
  (mode_is (query request !! "mode") "checkauth" = true ->
   main ext this (Some request) w
   = (let* r := checkauth this (getBasicCredentials request) in
      ret (Returned r)) (announce request w).2 /\
   validations (main ext this (Some request) w).2 = validations w) /\
  (mode_is (query request !! "mode") "checkauth" = false ->
   let info := requestSessionInfo ext this request in
   let validated :=
     validateRequestSessionInfo this info
       (console_put (LogRequest request) (announce request w).2).2 in
   sessionId info
   = match cookieHeader request with
     | None | Some "" => Some ""
     | Some cookieString =>
         cookie_parse ext cookieString !! sessionIdCookieName (settings this)
     end /\
   csrfToken info = default "" (query request !! "sessid") /\
   validations (main ext this (Some request) w).2 = S (validations w) /\
   main ext this (Some request) w
   = (if negb validated.1.1
      then let* r := failureResult validated.1.2 in ret (Returned r)
      else dispatch_validated ext this request) validated.2 /\
   (validated.1.1 = false ->
    main ext this (Some request) w
    = (Returned (result ["failure"; default "" validated.1.2]),
       (console_error validated.1.2 validated.2).2))).
Proof.
  intros Htype. split.
  - intros Hmode. split; [now apply main_checkauth |].
    rewrite main_checkauth by assumption.
    rewrite <- (quiet_announce request w).
    apply quiet_bind; [apply quiet_checkauth | intros r; apply quiet_ret].
  - intros Hmode info validated.
    assert (main ext this (Some request) w
            = (if negb validated.1.1
               then let* r := failureResult validated.1.2 in ret (Returned r)
               else dispatch_validated ext this request) validated.2)
      as Hmain.
    { rewrite main_validated by assumption. unfold bind at 1.
      subst validated info.
      now destruct (validateRequestSessionInfo _ _ _) as [verdict w3]. }
    repeat split.
    + rewrite Hmain.
      transitivity (validations validated.2).
      * destruct (negb validated.1.1).
        -- apply quiet_bind; [apply quiet_failureResult | intros r; apply quiet_ret].
        -- apply quiet_dispatch_validated.
      * subst validated. rewrite validateRequestSessionInfo_counted.
        f_equal.
        rewrite <- (quiet_announce request w).
        now apply quiet_console_put.
    + exact Hmain.
    + intros Hinvalid. rewrite Hmain, Hinvalid. reflexivity.
Qed.

Lemma main_validates_unless_checkauth_witness :
  main Node.imports Sample.this
    (Some (Sample.request
             [("type", "catalog"); ("mode", "file"); ("filename", "a.xml")]
             None (Some Sample.body)))
    Sample.stocked
  = (Returned
       ("failure" +:+ LF +:+
        "No active session found. Use 'mode=checkauth' to start a new session."),
     (console_error
        (Some "No active session found. Use 'mode=checkauth' to start a new session.")
        (validateRequestSessionInfo Sample.this
           {| sessionId := Some ""; csrfToken := "" |}
           (console_put
              (LogRequest
                 (Sample.request
                    [("type", "catalog"); ("mode", "file");
                     ("filename", "a.xml")]
                    None (Some Sample.body)))
              (announce
                 (Sample.request
                    [("type", "catalog"); ("mode", "file");
                     ("filename", "a.xml")]
                    None (Some Sample.body))
                 Sample.stocked).2).2).2).2).
Proof.
  refine (proj2 (proj2 (proj2 (proj2
            (proj2 (main_validates_unless_checkauth Node.imports Sample.this
                      (Sample.request
                         [("type", "catalog"); ("mode", "file");
                          ("filename", "a.xml")]
                         None (Some Sample.body))
                      Sample.stocked _) _)))) _).
  - reflexivity.
  - reflexivity.
  - reflexivity.
Defined.

Example main_checkauth_needs_no_session :
  let request :=
    {| query := list_to_map [("type", "report"); ("mode", "checkauth")];
       cookieHeader := None;
       basicAuth := Some ("x", "y");
       rawBody := None |} in
  validations (main Node.imports Sample.this (Some request) Sample.blank).2 = 0%nat /\
  (main Node.imports Sample.this (Some request) Sample.blank).1
  = Returned
      ("success" +:+ LF +:+ "sessionId" +:+ LF +:+ "uuid-0" +:+ LF +:+
       "csrfToken=uuid-1" +:+ LF +:+ "timestamp=1700000000").
Proof. vm_compute. split; reflexivity. Qed.

(** ** The sweep *)

Lemma elem_of_expired_docs collection cutoff
    (db : gmap string ExchangeSessionStoredInFirestore) (path : string) :
  path ∈ expired_docs collection cutoff db <->
  exists d, db !! path = Some d /\
            in_collection collection path = true /\
            expired_at cutoff d = true.
Proof.
  unfold expired_docs. rewrite list_elem_of_fmap. split.
  - intros ([k d] & -> & Hin).
    apply elem_of_map_to_list, map_lookup_filter_Some in Hin as [Hdoc Hp].
    simpl in *. apply andb_true_iff in Hp as [Hc He]. eauto.
  - intros (d & Hdoc & Hc & He). exists (path, d). split; [reflexivity |].
    apply elem_of_map_to_list, map_lookup_filter_Some. split; [exact Hdoc |].
    simpl. now rewrite Hc, He.
Qed.

Lemma sweep_delete_lookup (docs : list string) (w : World) (path : string) :
  firestore (sweep_delete docs w).2 !! path
  = if decide (path ∈ docs) then None else firestore w !! path.
Proof.
  destruct (decide (path ∈ docs)) as [Hin | Hout].
  - destruct docs as [| doc docs]; [now apply elem_of_nil in Hin |].
    change (foldr delete (firestore w) (doc :: docs) !! path = None).
    now apply lookup_foldr_delete.
  - destruct docs as [| doc docs]; [reflexivity |].
    change (foldr delete (firestore w) (doc :: docs) !! path
            = firestore w !! path).
    now apply lookup_foldr_delete_not_elem_of.
Qed.

Lemma sweep_delete_frame (docs : list string) (w : World) :
  clock (sweep_delete docs w).2 = clock w /\
  ticks (sweep_delete docs w).2 = ticks w /\
  uuids (sweep_delete docs w).2 = uuids w /\
  drawn (sweep_delete docs w).2 = drawn w /\
  uploads (sweep_delete docs w).2 = uploads w.
Proof. now destruct docs. Qed.

(** [deleteExpiredSessions] removes from the sessions collection exactly
    the documents that expired at or before the time it reads, and keeps
    every other document as it is. *)
Lemma deleteExpiredSessions_lookup this w path :
  firestore (deleteExpiredSessions this w).2 !! path
  = match firestore w !! path with
    | Some d =>
        if in_collection (sessionsStoragePath (settings this)) path &&
           expired_at (clock w (ticks w)) d
        then None else Some d
    | None => None
    end.
Proof.
  unfold deleteExpiredSessions, sweep_query. run.
  rewrite sweep_delete_lookup. simpl.
  destruct (decide _) as [Hin | Hout].
  - apply elem_of_expired_docs in Hin as (d & -> & -> & ->). reflexivity.
  - destruct (firestore w !! path) as [d |] eqn:Hdoc; [| reflexivity].
    destruct (in_collection _ path && expired_at _ d) eqn:Hp; [| reflexivity].
    apply andb_true_iff in Hp as [Hc He].
    exfalso. apply Hout, elem_of_expired_docs. eauto.
Qed.

(** When the scheduler lets the sweep finish before the save, the race is
    the two methods one after the other. *)
Lemma sweep_and_save_sequential this session w :
  race w (S (ticks w)) = QueryDeleteSave ->
  sweep_and_save this session w
  = (deleteExpiredSessions this >> saveSession this session) w.
Proof.
  intros Horder. unfold sweep_and_save, deleteExpiredSessions. run.
  now rewrite Horder.
Qed.

Lemma sweep_and_save_frame this session w :
  clock (sweep_and_save this session w).2 = clock w /\
  ticks (sweep_and_save this session w).2 = S (ticks w) /\
  uuids (sweep_and_save this session w).2 = uuids w /\
  drawn (sweep_and_save this session w).2 = drawn w /\
  uploads (sweep_and_save this session w).2 = uploads w.
Proof.
  unfold sweep_and_save, sweep_query, saveSession. run.
  destruct (race w (S (ticks w))); run;
    match goal with |- context [sweep_delete ?docs ?w1] =>
      destruct (sweep_delete_frame docs w1) as (Hc & Ht & Hu & Hd & Hup);
      destruct (sweep_delete docs w1) as [[] w2]
    end; simpl in *; now rewrite ?Hc, ?Ht, ?Hu, ?Hd, ?Hup.
Qed.

(** ** Issuing a session *)

(** The new session survives the race with the sweep when its id is fresh
    and the sweep's cutoff lies before its expiry. *)
Lemma sweep_and_save_persists this session w :
  firestore w !! session_path this (es_sessionId session) = None ->
  clock w (ticks w) < expirationTimestamp session ->
  firestore (sweep_and_save this session w).2
    !! session_path this (es_sessionId session)
  = Some (stored session).
Proof.
  intros Hfresh Hcutoff.
  unfold sweep_and_save, sweep_query, saveSession. run.
  destruct (race w (S (ticks w))); run.
  - match goal with |- context [sweep_delete ?docs ?w1] =>
      destruct (sweep_delete docs w1) as [[] w2]
    end.
    simpl. apply lookup_insert_eq.
  - rewrite sweep_delete_lookup. simpl.
    destruct (decide _) as [Hin | Hout].
    + apply elem_of_expired_docs in Hin as (d & Hdoc & _). congruence.
    + apply lookup_insert_eq.
  - rewrite sweep_delete_lookup. simpl.
    destruct (decide _) as [Hin | Hout].
    + apply elem_of_expired_docs in Hin as (d & Hdoc & _ & Hexpired).
      rewrite lookup_insert_eq in Hdoc. injection Hdoc as <-.
      unfold expired_at in Hexpired. simpl in Hexpired.
      apply Z.leb_le in Hexpired. lia.
    + apply lookup_insert_eq.
Qed.

Lemma credentials_match (given expected : BasicCredentials) :
  given = expected ->
  strict_ne (username given) (username expected) ||
  strict_ne (password given) (password expected) = false.
Proof. intros ->. unfold strict_ne. now rewrite !String.eqb_refl. Qed.

(** [checkauth] with the configured credentials: the session is built,
    the sweep and the save race, and the five lines are put together with
    a last reading of the clock. *)
Lemma checkauth_authorized this (given : BasicCredentials) (w : World) :
  given = credentials (settings this) ->
  checkauth this given w
  = (sweep_and_save this (minted this w) >>
     let* now := utc in
     ret (result ["success";
                  sessionIdCookieName (settings this);
                  es_sessionId (minted this w);
                  csrfTokenName (settings this) +:+ "=" +:+
                    es_csrfToken (minted this w);
                  "timestamp=" +:+ pretty (round_seconds now)]))
      (minting w).
Proof.
  intros Hmatch. unfold checkauth.
  now rewrite (credentials_match _ _ Hmatch).
Qed.

(** ** C1: the session duration *)

(** C1 does not hold of the code: for an instance made by the constructor
    the persisted session expires 3600 seconds after the time of issuance
    whatever [settings.sessionDurationSeconds] is, so it is not the time
    of issuance plus the configured duration as soon as that differs
    from 3600. *)
Theorem checkauth_expiration_fixed_duration (settings : Settings)
    (given : BasicCredentials) (w : World) :
  let this := new_Exchange1c settings in
  let path := session_path this (uuids w (drawn w)) in
  let issued := clock w (ticks w) in
  given = credentials settings ->
  firestore w !! path = None ->
  clock w (S (ticks w)) < issued + 3600 * 1000 ->
  firestore (checkauth this given w).2 !! path
  = Some {| stored_sessionId := uuids w (drawn w);
            stored_csrfToken := uuids w (S (drawn w));
            stored_expirationTimestamp := Some (issued + 3600 * 1000) |} /\
  (sessionDurationSeconds settings <> 3600 ->
   firestore (checkauth this given w).2 !! path
   <> Some {| stored_sessionId := uuids w (drawn w);
              stored_csrfToken := uuids w (S (drawn w));
              stored_expirationTimestamp :=
                Some (issued + sessionDurationSeconds settings * 1000) |}).
Proof.
  intros this path issued Hmatch Hfresh Hcutoff.
  assert (firestore (checkauth this given w).2 !! path
          = Some (stored (minted this w))) as Hsaved.
  { rewrite checkauth_authorized by assumption.
    unfold bind at 1.
    pose proof (sweep_and_save_persists this (minted this w) (minting w))
      as Hpersists.
    destruct (sweep_and_save this (minted this w) (minting w)) as [[] w2].
    simpl in *. apply Hpersists; assumption. }
  rewrite Hsaved. split; [reflexivity |].
  intros Hduration. unfold stored, minted, plus_seconds. simpl.
  intros [= Heq]. fold issued in Heq. lia.
Qed.

Lemma checkauth_expiration_fixed_duration_witness :
  sessionDurationSeconds Sample.site = 7200 /\
  firestore
    (checkauth Sample.this {| username := "x"; password := "y" |}
       Sample.blank).2
    !! session_path Sample.this "uuid-0"
  = Some {| stored_sessionId := "uuid-0";
            stored_csrfToken := "uuid-1";
            stored_expirationTimestamp :=
              Some (Sample.epoch + 3600 * 1000) |}.
Proof.
  split; [reflexivity |].
  refine (proj1 (checkauth_expiration_fixed_duration Sample.site
                   {| username := "x"; password := "y" |} Sample.blank
                   _ _ _)).
  - reflexivity.
  - reflexivity.
  - vm_compute. reflexivity.
Defined.

(** ** C9: the lines of a successful checkauth *)

(** C9.  For the configured credentials the result of [checkauth] is
    exactly five lines joined by line feeds: "success", the cookie name,
    the generated session id, the csrf token name and the generated token
    around an equals sign, and "timestamp=" followed, with no space, by
    the time of the last clock reading in whole epoch seconds, rounded to
    the nearest. *)
Theorem checkauth_success_lines this (given : BasicCredentials) (w : World) :
  given = credentials (settings this) ->
  let now := clock w (S (S (ticks w))) in
  (checkauth this given w).1
  = "success" +:+ LF +:+
    sessionIdCookieName (settings this) +:+ LF +:+
    uuids w (drawn w) +:+ LF +:+
    (csrfTokenName (settings this) +:+ "=" +:+ uuids w (S (drawn w))) +:+ LF +:+
    ("timestamp=" +:+ pretty (round_seconds now)) /\
  (checkauth this given w).1
  = result ["success";
            sessionIdCookieName (settings this);
            uuids w (drawn w);
            csrfTokenName (settings this) +:+ "=" +:+ uuids w (S (drawn w));
            "timestamp=" +:+ pretty (round_seconds now)] /\
  now - 500 < 1000 * round_seconds now <= now + 500.
Proof.
  intros Hmatch now.
  assert ((checkauth this given w).1
          = result ["success";
                    sessionIdCookieName (settings this);
                    uuids w (drawn w);
                    csrfTokenName (settings this) +:+ "=" +:+
                      uuids w (S (drawn w));
                    "timestamp=" +:+ pretty (round_seconds now)]) as Hlines.
  { rewrite checkauth_authorized by assumption.
    unfold bind at 1.
    destruct (sweep_and_save_frame this (minted this w) (minting w))
      as (Hclock & Hticks & _).
    destruct (sweep_and_save this (minted this w) (minting w)) as [[] w2].
    run. simpl in Hclock, Hticks. rewrite Hclock, Hticks. reflexivity. }
  repeat split.
  - rewrite Hlines. reflexivity.
  - exact Hlines.
  - unfold round_seconds. pose proof (Z.div_mod (now + 500) 1000).
    pose proof (Z.mod_pos_bound (now + 500) 1000). lia.
  - unfold round_seconds. pose proof (Z.div_mod (now + 500) 1000).
    pose proof (Z.mod_pos_bound (now + 500) 1000). lia.
Qed.

Lemma checkauth_success_lines_witness :
  (checkauth Sample.this {| username := "x"; password := "y" |}
     Sample.blank).1
  = "success" +:+ LF +:+ "sessionId" +:+ LF +:+ "uuid-0" +:+ LF +:+
    "csrfToken=uuid-1" +:+ LF +:+ "timestamp=1700000000".
Proof.
  refine (proj1 (checkauth_success_lines Sample.this
                   {| username := "x"; password := "y" |} Sample.blank _)).
  reflexivity.
Defined.

(** ** Uploads *)

Lemma saveToStorage_uploads ext bucketName folder timestamp fileName data w :
  uploads (saveToStorage ext bucketName folder timestamp fileName data w).2
  = uploads w ++
    [{| bucketName := bucketName;
        remotePath :=
          posix_join ext folder
            (if String.eqb timestamp "" then fileName
             else timestamp +:+ "_" +:+ fileName);
        data := data |}].
Proof. reflexivity. Qed.

(** What [file] writes for a filename and a body that are both there. *)
Lemma file_upload ext this filename body w :
  filename <> "" ->
  (file ext this (Some filename) (Some body) w).1 = "success" /\
  uploads (file ext this (Some filename) (Some body) w).2
  = uploads w ++
    [if String.prefix "import_files" filename
     then {| bucketName := "1c-exchange-files";
             remotePath := posix_join ext (posix_dirname ext filename)
                             (posix_basename ext filename);
             data := body |}
     else
       let stamp := luxon_toFormat ext (clock w (ticks w)) timestamp_format in
       {| bucketName := "1c-exchange-catalog";
          remotePath := posix_join ext ""
                          (if String.eqb stamp "" then filename
                           else stamp +:+ "_" +:+ filename);
          data := body |}].
Proof.
  intros Hname. apply falsy_Some in Hname.
  unfold file. rewrite Hname. run.
  now destruct (String.prefix "import_files" filename).
Qed.

(** What [fileReport] writes for a filename and a body that are both
    there. *)
Lemma fileReport_upload ext this filename body w :
  filename <> "" ->
  (fileReport ext this (Some filename) (Some body) w).1 = "success" /\
  uploads (fileReport ext this (Some filename) (Some body) w).2
  = uploads w ++
    [if String.prefix "import_files" filename
     then {| bucketName := "1c-exchange-report";
             remotePath := posix_join ext (posix_dirname ext filename)
                             (posix_basename ext filename);
             data := body |}
     else {| bucketName := "1c-exchange-report";
             remotePath := posix_join ext "" filename;
             data := body |}].
Proof.
  intros Hname. apply falsy_Some in Hname.
  unfold fileReport. rewrite Hname. run.
  now destruct (String.prefix "import_files" filename).
Qed.

(** ** C7: where a file is stored *)

(** *** Splitting at slashes *)

Lemma split_on_not_nil (sep : ascii) (s : string) : Node.split_on sep s <> [].
Proof.
  destruct s as [| c rest]; simpl; [discriminate |].
  destruct (Ascii.eqb c sep); [discriminate |].
  destruct (Node.split_on sep rest); discriminate.
Qed.

Lemma split_on_slash (rest : string) :
  Node.split_on "/" (String "/" rest) = "" :: Node.split_on "/" rest.
Proof. reflexivity. Qed.

Lemma split_on_other (c : ascii) (rest : string) :
  Node.is_slash c = false ->
  exists head tail,
    Node.split_on "/" rest = head :: tail /\
    Node.split_on "/" (String c rest) = String c head :: tail.
Proof.
  intros Hc. simpl. unfold Node.is_slash in Hc. rewrite Hc.
  pose proof (split_on_not_nil "/" rest) as Hne.
  destruct (Node.split_on "/" rest) as [| head tail]; [contradiction |].
  now exists head, tail.
Qed.

Lemma is_slash_true (c : ascii) : Node.is_slash c = true -> c = "/"%char.
Proof. apply Ascii.eqb_eq. Qed.

Lemma concat_cons (sep head : string) (tail : list string) :
  tail <> [] ->
  String.concat sep (head :: tail) = head +:+ sep +:+ String.concat sep tail.
Proof. destruct tail; [contradiction | reflexivity]. Qed.

(** Joining the pieces with slashes gives the text back. *)
Lemma concat_split_on (s : string) :
  String.concat "/" (Node.split_on "/" s) = s.
Proof.
  induction s as [| c rest IH]; [reflexivity |].
  destruct (Node.is_slash c) eqn:Hc.
  - apply is_slash_true in Hc as ->. rewrite split_on_slash.
    rewrite concat_cons by apply split_on_not_nil. now rewrite IH.
  - destruct (split_on_other c rest Hc) as (head & tail & Hrest & ->).
    rewrite Hrest in IH. destruct tail as [| next tail].
    + simpl in *. now rewrite IH.
    + rewrite concat_cons in * by discriminate.
      change (String c (head +:+ "/" +:+ String.concat "/" (next :: tail))
              = String c rest).
      now rewrite IH.
Qed.

Lemma split_on_app_no_slash (a b : string) :
  no_slash a = true ->
  exists head tail,
    Node.split_on "/" b = head :: tail /\
    Node.split_on "/" (a +:+ b) = (a +:+ head) :: tail.
Proof.
  induction a as [| c a IH]; intros Ha.
  - pose proof (split_on_not_nil "/" b) as Hne.
    destruct (Node.split_on "/" b) as [| head tail] eqn:Hb; [contradiction |].
    exists head, tail. split; [reflexivity | exact Hb].
  - simpl in Ha. apply andb_true_iff in Ha as [Hc Ha].
    apply negb_true_iff in Hc.
    destruct (IH Ha) as (head & tail & Hb & Hab).
    exists head, tail. split; [exact Hb |].
    change (String c a +:+ b) with (String c (a +:+ b)).
    destruct (split_on_other c (a +:+ b) Hc) as (h & t & Hsplit & ->).
    rewrite Hab in Hsplit. now injection Hsplit as <- <-.
Qed.

(** *** Normalizing a plain path *)

Lemma normalize_segments_plain (allowAboveRoot : bool)
    (segments kept : list string) :
  forallb plain_component segments = true ->
  Node.normalize_segments allowAboveRoot segments kept
  = rev segments ++ kept.
Proof.
  revert kept. induction segments as [| segment rest IH]; intros kept Hplain;
    [reflexivity |].
  simpl in Hplain. apply andb_true_iff in Hplain as [Hsegment Hrest].
  unfold plain_component in Hsegment.
  apply andb_true_iff in Hsegment as [Hsegment Hdots].
  apply andb_true_iff in Hsegment as [Hempty Hdot].
  apply negb_true_iff in Hempty, Hdot, Hdots.
  simpl. rewrite Hempty, Hdot, Hdots. simpl.
  rewrite IH by assumption. now rewrite <- app_assoc.
Qed.

Lemma ends_with_slash_last (c : ascii) :
  Node.ends_with_slash (String c "") = Node.is_slash c.
Proof. reflexivity. Qed.

Lemma ends_with_slash_cons (c d : ascii) (rest : string) :
  Node.ends_with_slash (String c (String d rest))
  = Node.ends_with_slash (String d rest).
Proof.
  unfold Node.ends_with_slash.
  change (list_ascii_of_string (String c (String d rest)))
    with (c :: list_ascii_of_string (String d rest)).
  set (chars := list_ascii_of_string (String d rest)).
  change (rev (c :: chars)) with (rev chars ++ [c]).
  destruct (rev chars) as [| x l] eqn:Hrev; [| reflexivity].
  apply (f_equal (@rev ascii)) in Hrev. rewrite rev_involutive in Hrev.
  discriminate Hrev.
Qed.

(** A text that ends with a slash has an empty last piece. *)
Lemma ends_with_slash_split (s : string) :
  Node.ends_with_slash s = true -> last (Node.split_on "/" s) = Some "".
Proof.
  induction s as [| c rest IH]; [discriminate |].
  destruct rest as [| d rest].
  - rewrite ends_with_slash_last. intros Hc.
    apply is_slash_true in Hc as ->. reflexivity.
  - rewrite ends_with_slash_cons. intros Hends. specialize (IH Hends).
    destruct (Node.is_slash c) eqn:Hc.
    + apply is_slash_true in Hc as ->. rewrite split_on_slash.
      rewrite last_cons, IH. reflexivity.
    + destruct (split_on_other c (String d rest) Hc)
        as (head & tail & Hrest & ->).
      rewrite Hrest in IH. destruct tail as [| next tail].
      * simpl in IH. injection IH as ->.
        pose proof (concat_split_on (String d rest)) as Hback.
        rewrite Hrest in Hback. discriminate Hback.
      * now rewrite last_cons_cons in *.
Qed.

Lemma plain_path_components (path : string) :
  plain_path path = true ->
  forall component,
    In component (Node.split_on "/" path) -> plain_component component = true.
Proof. unfold plain_path. now rewrite forallb_forall. Qed.

Lemma plain_path_no_trailing_slash (path : string) :
  plain_path path = true -> Node.ends_with_slash path = false.
Proof.
  intros Hplain. destruct (Node.ends_with_slash path) eqn:Hends;
    [| reflexivity].
  apply ends_with_slash_split in Hends.
  apply last_Some_elem_of, list_elem_of_In in Hends.
  apply (plain_path_components path Hplain) in Hends. discriminate Hends.
Qed.

Lemma plain_path_first (path : string) :
  plain_path path = true ->
  exists c rest, path = String c rest /\ Node.is_slash c = false.
Proof.
  intros Hplain. destruct path as [| c rest]; [discriminate |].
  exists c, rest. split; [reflexivity |].
  destruct (Node.is_slash c) eqn:Hc; [| reflexivity].
  apply is_slash_true in Hc as ->.
  unfold plain_path in Hplain. rewrite split_on_slash in Hplain.
  discriminate Hplain.
Qed.

(** [posix.normalize] leaves a plain path as it is. *)
Lemma normalize_plain (path : string) :
  plain_path path = true -> Node.normalize path = path.
Proof.
  intros Hplain.
  destruct (plain_path_first path Hplain) as (c & rest & Hpath & Hc).
  pose proof (plain_path_no_trailing_slash path Hplain) as Hends.
  subst path. unfold Node.normalize. cbv iota. rewrite Hc, Hends.
  rewrite normalize_segments_plain by exact Hplain.
  rewrite app_nil_r, rev_involutive, concat_split_on.
  reflexivity.
Qed.

Lemma plain_path_not_empty (path : string) :
  plain_path path = true -> String.eqb path "" = false.
Proof. destruct path; [discriminate | reflexivity]. Qed.

(** [posix.join('', name)] of a plain path. *)
Lemma join_root_plain (name : string) :
  plain_path name = true -> Node.join "" name = name.
Proof.
  intros Hplain. unfold Node.join. simpl.
  rewrite plain_path_not_empty by assumption. now apply normalize_plain.
Qed.

Lemma underscore_not_empty (a b : string) : a +:+ "_" +:+ b <> "".
Proof. destruct a; discriminate. Qed.

(** A text with an underscore in it is a plain component. *)
Lemma plain_component_underscore (a b : string) :
  plain_component (a +:+ "_" +:+ b) = true.
Proof.
  unfold plain_component.
  assert (a +:+ "_" +:+ b <> "." /\ a +:+ "_" +:+ b <> "..") as [Hdot Hdots].
  { destruct a as [| c a].
    - split; discriminate.
    - change (String c a +:+ "_" +:+ b) with (String c (a +:+ "_" +:+ b)).
      split.
      + intros [= _ H]. now apply underscore_not_empty in H.
      + intros [= _ H]. destruct a as [| d a]; [discriminate H |].
        change (String d a +:+ "_" +:+ b)
          with (String d (a +:+ "_" +:+ b)) in H.
        injection H as _ H. now apply underscore_not_empty in H. }
  pose proof (underscore_not_empty a b) as Hempty.
  apply String.eqb_neq in Hempty, Hdot, Hdots.
  now rewrite Hempty, Hdot, Hdots.
Qed.

(** A plain path stays plain behind a slash-free prefix that ends in an
    underscore. *)
Lemma plain_path_stamped (stamp filename : string) :
  no_slash stamp = true ->
  plain_path filename = true ->
  plain_path (stamp +:+ "_" +:+ filename) = true.
Proof.
  intros Hstamp Hplain.
  assert (no_slash (stamp +:+ "_") = true) as Hprefix.
  { clear Hplain. induction stamp as [| c stamp IH]; [reflexivity |].
    simpl in *. apply andb_true_iff in Hstamp as [-> Hstamp].
    now apply IH. }
  destruct (split_on_app_no_slash (stamp +:+ "_") filename Hprefix)
    as (head & tail & Hsplit & Hwhole).
  unfold plain_path in *. rewrite Hsplit in Hplain.
  assert ((stamp +:+ "_") +:+ filename = stamp +:+ "_" +:+ filename) as Hassoc.
  { clear. induction stamp as [| c stamp IH]; [reflexivity |].
    change (String c ((stamp +:+ "_") +:+ filename)
            = String c (stamp +:+ "_" +:+ filename)).
    now rewrite IH. }
  rewrite <- Hassoc, Hwhole. simpl in *.
  apply andb_true_iff in Hplain as [_ ->].
  assert ((stamp +:+ "_") +:+ head = stamp +:+ "_" +:+ head) as ->.
  { clear. induction stamp as [| c stamp IH]; [reflexivity |].
    change (String c ((stamp +:+ "_") +:+ head)
            = String c (stamp +:+ "_" +:+ head)).
    now rewrite IH. }
  now rewrite plain_component_underscore.
Qed.

(** *** The directory and the base name of a plain path *)

Lemma take_drop_while (p : ascii -> bool) (l : list ascii) :
  Node.take_while p l ++ Node.drop_while p l = l.
Proof.
  induction l as [| c l IH]; [reflexivity |].
  simpl. destruct (p c); [| reflexivity]. simpl. now rewrite IH.
Qed.

Lemma drop_while_head (p : ascii -> bool) (l : list ascii) c rest :
  Node.drop_while p l = c :: rest -> p c = false.
Proof.
  induction l as [| x l IH]; [discriminate |].
  simpl. destruct (p x) eqn:Hx; [exact IH |].
  now intros [= <- _].
Qed.

Lemma drop_while_stop (p : ascii -> bool) (c : ascii) (l : list ascii) :
  p c = false -> Node.drop_while p (c :: l) = c :: l.
Proof. intros Hc. simpl. now rewrite Hc. Qed.

Lemma take_while_stop (p : ascii -> bool) (l rest : list ascii) :
  match rest with
  | c :: _ => p c = false
  | [] => True
  end ->
  Node.take_while p (Node.take_while p l ++ rest) = Node.take_while p l.
Proof.
  intros Hstop. induction l as [| x l IH].
  - simpl. destruct rest as [| c rest]; [reflexivity |].
    simpl. now rewrite Hstop.
  - simpl. destruct (p x) eqn:Hx.
    + simpl. rewrite Hx. now rewrite IH.
    + simpl. destruct rest as [| c rest]; [reflexivity |].
      simpl. now rewrite Hstop.
Qed.

Lemma take_while_all (p : ascii -> bool) (l : list ascii) (c : ascii) :
  Node.drop_while p l = [] -> p c = true ->
  Node.take_while p (l ++ [c]) = l ++ [c].
Proof.
  intros Hdrop Hc. induction l as [| x l IH].
  - simpl. now rewrite Hc.
  - simpl in *. destruct (p x); [| discriminate].
    now rewrite IH.
Qed.

Lemma string_of_list_ascii_app (a b : list ascii) :
  string_of_list_ascii (a ++ b)
  = string_of_list_ascii a +:+ string_of_list_ascii b.
Proof.
  induction a as [| c a IH]; [reflexivity |].
  simpl.
  change (String c (string_of_list_ascii (a ++ b))
          = String c (string_of_list_ascii a +:+ string_of_list_ascii b)).
  now rewrite IH.
Qed.

(** The characters behind the first of a plain path, read backwards,
    do not start with a slash. *)
Lemma plain_path_backwards (first : ascii) (rest : string) :
  plain_path (String first rest) = true ->
  match rev (list_ascii_of_string rest) with
  | c :: _ => Node.is_slash c = false
  | [] => True
  end.
Proof.
  intros Hplain. apply plain_path_no_trailing_slash in Hplain.
  destruct rest as [| d rest]; [exact I |].
  rewrite ends_with_slash_cons in Hplain. unfold Node.ends_with_slash in Hplain.
  now destruct (rev (list_ascii_of_string (String d rest))).
Qed.

Lemma drop_while_slash_backwards (l : list ascii) :
  match l with
  | c :: _ => Node.is_slash c = false
  | [] => True
  end ->
  Node.drop_while Node.is_slash l = l.
Proof. destruct l as [| c l]; [reflexivity |]. intros Hc. simpl. now rewrite Hc. Qed.

(** The base name and the directory name of a plain path: either the
    path has no slash, and it is its own base name in the directory [.],
    or it is its directory name, a slash and its base name. *)
Lemma dirname_basename_plain (path : string) :
  plain_path path = true ->
  (Node.dirname path = "." /\ Node.basename path = path) \/
  (Node.dirname path <> "" /\ Node.basename path <> "" /\
   path = Node.dirname path +:+ "/" +:+ Node.basename path).
Proof.
  intros Hplain.
  destruct (plain_path_first path Hplain) as (first & rest & -> & Hfirst).
  pose proof (plain_path_backwards first rest Hplain) as Hback.
  set (r := rev (list_ascii_of_string rest)) in *.
  assert (list_ascii_of_string rest = rev r) as Hchars.
  { subst r. now rewrite rev_involutive. }
  assert (Node.basename (String first rest)
          = string_of_list_ascii
              (rev (Node.take_while not_slash (r ++ [first])))) as Hbase.
  { unfold Node.basename.
    change (list_ascii_of_string (String first rest))
      with (first :: list_ascii_of_string rest).
    change (rev (first :: list_ascii_of_string rest)) with (r ++ [first]).
    rewrite drop_while_slash_backwards; [reflexivity |].
    destruct r as [| c r']; [exact Hfirst | exact Hback]. }
  assert (Node.dirname (String first rest)
          = match Node.drop_while not_slash r with
            | [] => "."
            | _ :: kept => String first (string_of_list_ascii (rev kept))
            end) as Hdir.
  { unfold Node.dirname. fold r.
    rewrite (drop_while_slash_backwards r Hback). fold not_slash.
    rewrite Hfirst.
    destruct (Node.drop_while not_slash r) as [| s [| k kept]]; reflexivity. }
  pose proof (take_drop_while not_slash r) as Hsplit.
  destruct (Node.drop_while not_slash r) as [| s kept] eqn:Hdrop.
  - left. split; [exact Hdir |].
    rewrite Hbase, take_while_all; [| exact Hdrop | ].
    + rewrite rev_app_distr. simpl. rewrite <- Hchars.
      now rewrite string_of_list_ascii_of_string.
    + unfold not_slash. now rewrite Hfirst.
  - right. pose proof (drop_while_head _ _ _ _ Hdrop) as Hs.
    unfold not_slash in Hs. apply negb_false_iff, is_slash_true in Hs.
    subst s.
    assert (Node.take_while not_slash (r ++ [first])
            = Node.take_while not_slash r) as Htake.
    { rewrite <- Hsplit at 1. rewrite <- app_assoc.
      now apply take_while_stop. }
    rewrite Hbase, Hdir, Htake. repeat split.
    + discriminate.
    + destruct r as [| c r']; [discriminate Hdrop |].
      simpl in Hback. simpl. unfold not_slash at 1. rewrite Hback. simpl.
      destruct (rev (Node.take_while not_slash r')); discriminate.
    + assert (rest
              = string_of_list_ascii
                  (rev kept ++ ["/"%char] ++
                   rev (Node.take_while not_slash r))) as Hrest.
      { rewrite <- (string_of_list_ascii_of_string rest), Hchars. f_equal.
        rewrite <- Hsplit at 1. rewrite rev_app_distr. simpl.
        now rewrite <- app_assoc. }
      rewrite Hrest at 1. rewrite !string_of_list_ascii_app. reflexivity.
Qed.

Lemma normalize_dot_slash (path : string) :
  plain_path path = true ->
  Node.normalize ("." +:+ "/" +:+ path) = path.
Proof.
  intros Hplain.
  pose proof (plain_path_no_trailing_slash path Hplain) as Hends.
  destruct (plain_path_first path Hplain) as (c & rest & Hpath & Hc).
  change ("." +:+ "/" +:+ path) with (String "." (String "/" path)).
  unfold Node.normalize. cbv iota.
  rewrite ends_with_slash_cons.
  assert (Node.ends_with_slash (String "/" path) = false) as ->.
  { rewrite Hpath, ends_with_slash_cons, <- Hpath. exact Hends. }
  change (Node.split_on "/" (String "." (String "/" path)))
    with (match Node.split_on "/" (String "/" path) with
          | head :: tail => String "." head :: tail
          | [] => [String "." EmptyString]
          end).
  rewrite split_on_slash.
  change (Node.is_slash ".") with false. simpl negb.
  change (Node.normalize_segments true ("." :: Node.split_on "/" path) [])
    with (Node.normalize_segments true (Node.split_on "/" path) []).
  rewrite normalize_segments_plain by exact Hplain.
  rewrite app_nil_r, rev_involutive, concat_split_on.
  rewrite Hpath. reflexivity.
Qed.

(** [posix.join(posix.dirname(path), posix.basename(path))] of a plain
    path is the path. *)
Lemma join_dirname_basename_plain (path : string) :
  plain_path path = true ->
  Node.join (Node.dirname path) (Node.basename path) = path.
Proof.
  intros Hplain.
  destruct (dirname_basename_plain path Hplain)
    as [[-> ->] | (Hdir & Hbase & Hpath)].
  - unfold Node.join. simpl String.eqb at 1. cbv iota.
    rewrite plain_path_not_empty by assumption.
    now apply normalize_dot_slash.
  - unfold Node.join.
    apply String.eqb_neq in Hdir, Hbase. rewrite Hdir, Hbase.
    rewrite <- Hpath. now apply normalize_plain.
Qed.

(** C7, as stated, fails.  [posix.join] normalizes the path it builds,
    so the timestamp of a catalog file can be lost with the component it
    is attached to: the catalog file [a/../b.xml], whose name does not
    start with [import_files], is stored as [b.xml], with no timestamp
    in front.  And the first route is taken by the text of the name, not
    by its first component: [import_files_old.xml] is stored without a
    timestamp though [import_files] is not a component of it. *)
Lemma file_remote_path_counterexample :
  String.prefix "import_files" "a/../b.xml" = false /\
  uploads (file Node.imports Sample.this (Some "a/../b.xml")
             (Some Sample.body) Sample.blank).2
  = [{| bucketName := "1c-exchange-catalog";
        remotePath := "b.xml";
        data := Sample.body |}] /\
  String.prefix
    (Node.toFormat (clock Sample.blank (ticks Sample.blank)) timestamp_format)
    "b.xml" = false /\
  Node.split_on "/" "import_files_old.xml" = ["import_files_old.xml"] /\
  uploads (file Node.imports Sample.this (Some "import_files_old.xml")
             (Some Sample.body) Sample.blank).2
  = [{| bucketName := "1c-exchange-files";
        remotePath := "import_files_old.xml";
        data := Sample.body |}].
Proof. vm_compute. repeat split. Qed.

(** C7, amended.  For a file-mode write with a body and a filename that
    is a plain relative path (components separated by single slashes,
    none of them empty, [.] or [..]), with [posix.join], [posix.dirname]
    and [posix.basename] as path.posix has them: a filename whose text
    starts with [import_files] is stored, for either exchange type, at
    the filename itself, which is its directory name, a slash and its
    base name (or its base name alone in the directory [.]), with no
    timestamp; any other catalog filename is stored at the generation
    timestamp in format yyyy-MM-dd_HH-mm-ss-SSSZZZ, an underscore and the
    filename, the timestamp being a non-empty text without a slash; any
    other report filename is stored at the filename alone. *)
Theorem file_remote_path (parse : string -> gmap string string)
    (format : Z -> string -> string) this (filename : string)
    (body : Buffer) (w : World) :
  let ext := posix_imports parse format in
  let stamp := format (clock w (ticks w)) timestamp_format in
  plain_path filename = true ->
  (String.prefix "import_files" filename = true ->
   (exists u,
       uploads (file ext this (Some filename) (Some body) w).2
       = uploads w ++ [u] /\
       remotePath u = filename /\ data u = body) /\
   (exists u,
       uploads (fileReport ext this (Some filename) (Some body) w).2
       = uploads w ++ [u] /\
       remotePath u = filename /\ data u = body) /\
   (Node.dirname filename = "." /\ Node.basename filename = filename \/
    filename = Node.dirname filename +:+ "/" +:+ Node.basename filename)) /\
  (String.prefix "import_files" filename = false ->
   (stamp <> "" -> no_slash stamp = true ->
    exists u,
      uploads (file ext this (Some filename) (Some body) w).2
      = uploads w ++ [u] /\
      remotePath u = stamp +:+ "_" +:+ filename /\ data u = body) /\
   (exists u,
       uploads (fileReport ext this (Some filename) (Some body) w).2
       = uploads w ++ [u] /\
       remotePath u = filename /\ data u = body)).
Proof.
  intros ext stamp Hplain.
  assert (filename <> "") as Hname.
  { apply String.eqb_neq. now apply plain_path_not_empty. }
  destruct (file_upload ext this filename body w Hname) as [_ Hfile].
  destruct (fileReport_upload ext this filename body w Hname) as [_ Hreport].
  split; intros Hshape; rewrite Hshape in Hfile, Hreport.
  - repeat split.
    + eexists. split; [exact Hfile |]. split; [| reflexivity].
      now apply join_dirname_basename_plain.
    + eexists. split; [exact Hreport |]. split; [| reflexivity].
      now apply join_dirname_basename_plain.
    + destruct (dirname_basename_plain filename Hplain)
        as [Hdot | (_ & _ & Hparts)]; [left | right]; assumption.
  - split.
    + intros Hstamp Hslash. eexists. split; [exact Hfile |].
      split; [| reflexivity].
      cbv zeta. change (luxon_toFormat ext) with format. fold stamp.
      apply String.eqb_neq in Hstamp. rewrite Hstamp.
      apply join_root_plain. now apply plain_path_stamped.
    + eexists. split; [exact Hreport |]. split; [| reflexivity].
      now apply join_root_plain.
Qed.

Lemma file_remote_path_witness :
  (exists u,
      uploads (file Node.imports Sample.this
                 (Some "import_files/orders/order1.xml") (Some Sample.body)
                 Sample.blank).2
      = uploads Sample.blank ++ [u] /\
      remotePath u = "import_files/orders/order1.xml" /\
      data u = Sample.body) /\
  (exists u,
      uploads (file Node.imports Sample.this (Some "offers/offers.xml")
                 (Some Sample.body) Sample.blank).2
      = uploads Sample.blank ++ [u] /\
      remotePath u = "2023-11-14_22-13-20-000+0000_offers/offers.xml" /\
      data u = Sample.body).
Proof.
  split.
  - refine (proj1 (proj1 (file_remote_path Node.parse Node.toFormat
                            Sample.this "import_files/orders/order1.xml"
                            Sample.body Sample.blank _) _)).
    + reflexivity.
    + reflexivity.
  - refine (proj1 (proj2 (file_remote_path Node.parse Node.toFormat
                            Sample.this "offers/offers.xml"
                            Sample.body Sample.blank _) _) _ _).
    + reflexivity.
    + reflexivity.
    + vm_compute. discriminate.
    + vm_compute. reflexivity.
Defined.

Example file_catalog_stamped :
  uploads (file Node.imports Sample.this (Some "import.xml")
             (Some Sample.body) Sample.blank).2
  = [{| bucketName := "1c-exchange-catalog";
        remotePath := "2023-11-14_22-13-20-000+0000_import.xml";
        data := Sample.body |}].
Proof. vm_compute. reflexivity. Qed.

Example fileReport_root_unstamped :
  uploads (fileReport Node.imports Sample.this (Some "report1.xml")
             (Some Sample.body) Sample.blank).2
  = [{| bucketName := "1c-exchange-report";
        remotePath := "report1.xml";
        data := Sample.body |}].
Proof. vm_compute. reflexivity. Qed.

(** A name that merely begins with the letters [import_files] takes the
    first route as well. *)
Example file_prefix_is_textual :
  uploads (file Node.imports Sample.this (Some "import_files_old.xml")
             (Some Sample.body) Sample.blank).2
  = [{| bucketName := "1c-exchange-files";
        remotePath := "import_files_old.xml";
        data := Sample.body |}].
Proof. vm_compute. reflexivity. Qed.

(** ** C10: the destination bucket *)

(** C10.  In file mode the bucket depends on the exchange type and on the
    shape of the filename: a catalog file goes to '1c-exchange-files'
    when its name starts with [import_files] and to '1c-exchange-catalog'
    otherwise, two different buckets; a report file goes to
    '1c-exchange-report' whatever its name. *)
Theorem file_bucket ext this filename body w :
  filename <> "" ->
  (exists u,
      uploads (file ext this (Some filename) (Some body) w).2
      = uploads w ++ [u] /\
      bucketName u = if String.prefix "import_files" filename
                     then "1c-exchange-files" else "1c-exchange-catalog") /\
  (exists u,
      uploads (fileReport ext this (Some filename) (Some body) w).2
      = uploads w ++ [u] /\
      bucketName u = "1c-exchange-report") /\
  "1c-exchange-files" <> "1c-exchange-catalog".
Proof.
  intros Hname.
  destruct (file_upload ext this filename body w Hname) as [_ Hfile].
  destruct (fileReport_upload ext this filename body w Hname) as [_ Hreport].
  repeat split.
  - eexists. split; [exact Hfile |].
    now destruct (String.prefix "import_files" filename).
  - eexists. split; [exact Hreport |].
    now destruct (String.prefix "import_files" filename).
  - discriminate.
Qed.

Lemma file_bucket_witness :
  exists u,
    uploads (file Node.imports Sample.this (Some "offers.xml")
               (Some Sample.body) Sample.blank).2
    = uploads Sample.blank ++ [u] /\
    bucketName u = "1c-exchange-catalog".
Proof.
  refine (proj1 (file_bucket Node.imports Sample.this "offers.xml"
                   Sample.body Sample.blank _)).
  discriminate.
Defined.

(** ** C8: a file request without filename or body *)

Lemma file_rejects ext this filename requestBody w :
  (falsy filename = true ->
   file ext this filename requestBody w
   = failureResult (Some "Filename is empty.") w /\
   fileReport ext this filename requestBody w
   = failureResult (Some "Filename is empty.") w) /\
  (falsy filename = false -> requestBody = None ->
   file ext this filename requestBody w
   = failureResult (Some "Request body is undefined")
       (console_log ("filename: " +:+ default "" filename) w).2 /\
   fileReport ext this filename requestBody w
   = failureResult (Some "Request body is undefined")
       (console_log ("filename: " +:+ default "" filename) w).2).
Proof.
  unfold file, fileReport. split.
  - intros ->. split; reflexivity.
  - intros -> ->. split; reflexivity.
Qed.

(** With a supported type, mode file leads to [file] for a catalog and to
    [fileReport] for a report. *)
Lemma dispatch_validated_file ext this request :
  unsupported_type (query request !! "type") = false ->
  mode_is (query request !! "mode") "file" = true ->
  dispatch_validated ext this request
  = let* r := (if mode_is (query request !! "type") "catalog"
               then file ext this (query request !! "filename")
                      (rawBody request)
               else fileReport ext this (query request !! "filename")
                      (rawBody request)) in
    ret (Returned r).
Proof.
  intros Htype Hmode. unfold dispatch_validated. cbv zeta. rewrite Hmode.
  assert (mode_is (query request !! "mode") "init" = false) as ->.
  { destruct (query request !! "mode") as [mode |]; [| discriminate].
    simpl in *. apply String.eqb_eq in Hmode as ->. reflexivity. }
  simpl.
  destruct (query request !! "type") as [type |]; [| discriminate].
  unfold unsupported_type, strict_ne in Htype. simpl in *.
  destruct (String.eqb type "catalog"); [reflexivity |].
  destruct (String.eqb type "report"); [reflexivity | discriminate].
Qed.

(** C8.  In file mode, for a catalog and for a report alike: a missing or
    empty filename yields the failure result with "Filename is empty.",
    and a non-empty filename without a body yields the failure result
    with "Request body is undefined"; in both cases nothing is written to
    storage.  The same holds of the dispatcher for a file request of a
    supported type whose session validation passed. *)
Theorem file_missing_input ext this :
  (forall filename requestBody w,
      falsy filename = true ->
      (file ext this filename requestBody w).1
      = "failure" +:+ LF +:+ "Filename is empty." /\
      uploads (file ext this filename requestBody w).2 = uploads w /\
      (fileReport ext this filename requestBody w).1
      = "failure" +:+ LF +:+ "Filename is empty." /\
      uploads (fileReport ext this filename requestBody w).2 = uploads w) /\
  (forall filename w,
      falsy filename = false ->
      (file ext this filename None w).1
      = "failure" +:+ LF +:+ "Request body is undefined" /\
      uploads (file ext this filename None w).2 = uploads w /\
      (fileReport ext this filename None w).1
      = "failure" +:+ LF +:+ "Request body is undefined" /\
      uploads (fileReport ext this filename None w).2 = uploads w) /\
  (forall request w,
      unsupported_type (query request !! "type") = false ->
      mode_is (query request !! "mode") "file" = true ->
      (validateRequestSessionInfo this (requestSessionInfo ext this request)
         (console_put (LogRequest request) (announce request w).2).2).1.1
      = true ->
      (falsy (query request !! "filename") = true ->
       (main ext this (Some request) w).1
       = Returned ("failure" +:+ LF +:+ "Filename is empty.") /\
       uploads (main ext this (Some request) w).2 = uploads w) /\
      (falsy (query request !! "filename") = false ->
       rawBody request = None ->
       (main ext this (Some request) w).1
       = Returned ("failure" +:+ LF +:+ "Request body is undefined") /\
       uploads (main ext this (Some request) w).2 = uploads w)).
Proof.
  split; [| split].
  - intros filename requestBody w Hempty.
    destruct (file_rejects ext this filename requestBody w)
      as [Hrejects _].
    destruct (Hrejects Hempty) as [-> ->]. repeat split.
  - intros filename w Hname.
    destruct (file_rejects ext this filename None w) as [_ Hrejects].
    destruct (Hrejects Hname eq_refl) as [-> ->]. repeat split.
  - intros request w Htype Hmode Hvalid.
    assert (mode_is (query request !! "mode") "checkauth" = false) as Hnot.
    { destruct (query request !! "mode") as [mode |]; [| reflexivity].
      simpl in *. apply String.eqb_eq in Hmode as ->. reflexivity. }
    pose proof (main_validated ext this request w Htype Hnot) as Hmain.
    unfold bind at 1 in Hmain.
    destruct (validateRequestSessionInfo_frame this
                (requestSessionInfo ext this request)
                (console_put (LogRequest request) (announce request w).2).2)
      as (Huploads & _).
    destruct (validateRequestSessionInfo this _ _) as [[ok error] w3].
    simpl in Hvalid, Huploads. subst ok.
    change (main ext this (Some request) w
            = dispatch_validated ext this request w3) in Hmain.
    rewrite dispatch_validated_file in Hmain by assumption.
    rewrite Hmain. unfold bind.
    destruct (file_rejects ext this (query request !! "filename")
                (rawBody request) w3) as [Hempty_case Hbody_case].
    split.
    + intros Hempty. destruct (Hempty_case Hempty) as [Hfile Hreport].
      destruct (mode_is _ "catalog"); cbv iota; rewrite ?Hfile, ?Hreport;
        simpl; now rewrite Huploads.
    + intros Hname Hbody.
      destruct (Hbody_case Hname Hbody) as [Hfile Hreport].
      destruct (mode_is _ "catalog"); cbv iota; rewrite ?Hfile, ?Hreport;
        simpl; now rewrite Huploads.
Qed.

Lemma file_missing_input_witness :
  (main Node.imports Sample.this
     (Some (Sample.request [("type", "report"); ("mode", "file")]
              (Some "sessionId=live") (Some Sample.body)))
     Sample.stocked).1
  = Returned ("failure" +:+ LF +:+ "Filename is empty.") /\
  uploads
    (main Node.imports Sample.this
       (Some (Sample.request [("type", "report"); ("mode", "file")]
                (Some "sessionId=live") (Some Sample.body)))
       Sample.stocked).2
  = uploads Sample.stocked.
Proof.
  refine (proj1 (proj2 (proj2 (file_missing_input Node.imports Sample.this))
                   (Sample.request [("type", "report"); ("mode", "file")]
                      (Some "sessionId=live") (Some Sample.body))
                   Sample.stocked _ _ _) _).
  - reflexivity.
  - reflexivity.
  - vm_compute. reflexivity.
  - reflexivity.
Defined.

Example file_without_body :
  (main Node.imports Sample.this
     (Some (Sample.request
              [("type", "catalog"); ("mode", "file");
               ("filename", "import.xml")]
              (Some "sessionId=live") None))
     Sample.stocked).1
  = Returned ("failure" +:+ LF +:+ "Request body is undefined").
Proof. vm_compute. reflexivity. Qed.

(** The upload scenarios of a validated request. *)
Example main_catalog_import_files :
  uploads
    (main Node.imports Sample.this
       (Some (Sample.request
                [("type", "catalog"); ("mode", "file");
                 ("filename", "import_files/orders/order1.xml")]
                (Some "sessionId=live") (Some Sample.body)))
       Sample.stocked).2
  = [{| bucketName := "1c-exchange-files";
        remotePath := "import_files/orders/order1.xml";
        data := Sample.body |}].
Proof. vm_compute. reflexivity. Qed.

Example main_unsupported_type :
  (main Node.imports Sample.this
     (Some (Sample.request [("type", "foo")] None None)) Sample.blank).1
  = Returned
      ("failure" +:+ LF +:+
       "Parameter type " +:+ QUOTE +:+ "foo" +:+ QUOTE +:+
       " is not supported. Supported parameters: catalog, report").
Proof. vm_compute. reflexivity. Qed.

(** * Further properties of the code *)

(** ** Loading the settings *)

Lemma merged_string_blank (default : string) (v : option string) :
  merged_string default (blank_to_missing v) = merged_string default v.
Proof.
  destruct v as [s |]; [| reflexivity].
  unfold blank_to_missing. simpl.
  destruct (String.eqb s "") eqn:Hs; simpl; now rewrite ?Hs.
Qed.

Lemma falsy_merged_string (v : option string) :
  falsy (Some (merged_string "" v)) = falsy v.
Proof.
  destruct v as [s |]; [| reflexivity].
  simpl. destruct (String.eqb s "") eqn:Hs; [reflexivity | exact Hs].
Qed.

Lemma merged_string_set (v : option string) :
  falsy v = false ->
  v = Some (merged_string "" v) /\ merged_string "" v <> "".
Proof.
  destruct v as [s |]; [| discriminate].
  simpl. intros Hs. rewrite Hs. split; [reflexivity |].
  now apply String.eqb_neq.
Qed.

(** X1.  [getSettings] throws its error exactly when the settings
    document has no username or no password, an empty string counting as
    none; otherwise it returns settings that carry the loaded username
    and password. *)
Theorem getSettings_throws_iff settingsPath (l : LoadedSettings) :
  (falsy (loaded_username l) || falsy (loaded_password l) = true ->
   getSettings settingsPath l
   = Thrown "1C exchange settings 'username' and/or 'password' not set") /\
  (falsy (loaded_username l) || falsy (loaded_password l) = false ->
   exists settings,
     getSettings settingsPath l = Returned settings /\
     loaded_username l = Some (username settings) /\
     loaded_password l = Some (password settings) /\
     username settings <> "" /\ password settings <> "").
Proof.
  unfold getSettings. cbv zeta. simpl username. simpl password.
  rewrite !falsy_merged_string. split; intros Hset; rewrite Hset.
  - reflexivity.
  - apply orb_false_elim in Hset as [Hu Hp].
    destruct (merged_string_set _ Hu) as [Hname Hname_set].
    destruct (merged_string_set _ Hp) as [Hpass Hpass_set].
    eexists. split; [reflexivity |]. simpl. auto.
Qed.

Lemma getSettings_throws_iff_witness :
  getSettings Sample.settingsPath
    {| loaded_username := Some "x";
       loaded_password := Some "";
       loaded_zip := None;
       loaded_fileSizeLimit := None;
       loaded_sessionDurationSeconds := None;
       loaded_sessionIdCookieName := None;
       loaded_csrfProtection := None;
       loaded_csrfTokenName := None;
       loaded_sessionsStoragePath := None |}
  = Thrown "1C exchange settings 'username' and/or 'password' not set".
Proof.
  refine (proj1 (getSettings_throws_iff Sample.settingsPath _) _).
  reflexivity.
Defined.

(** X2.  An attribute loaded as the empty string is treated as if it were
    missing: removing every empty string from the settings document does
    not change what [getSettings] gives. *)
Theorem getSettings_ignores_blanks settingsPath (l : LoadedSettings) :
  getSettings settingsPath (without_blanks l) = getSettings settingsPath l.
Proof.
  unfold getSettings, without_blanks. simpl.
  now rewrite !merged_string_blank.
Qed.

(** ** The session store, further *)

(** X3.  [deleteExpiredSessions] deletes exactly the documents of the
    sessions collection whose expiry is at or before the time it reads:
    such a document is gone afterwards, every other document (unexpired,
    without an expiry, or outside the collection) is kept as it is, and
    no document appears. *)
Theorem deleteExpiredSessions_exact this (w : World) (path : string) :
  let cutoff := clock w (ticks w) in
  let collection := sessionsStoragePath (settings this) in
  let after := firestore (deleteExpiredSessions this w).2 in
  (forall d,
      firestore w !! path = Some d ->
      in_collection collection path = true ->
      expired_at cutoff d = true ->
      after !! path = None) /\
  (forall d,
      firestore w !! path = Some d ->
      in_collection collection path = false \/ expired_at cutoff d = false ->
      after !! path = Some d) /\
  (firestore w !! path = None -> after !! path = None).
Proof.
  intros cutoff collection after. subst after.
  rewrite deleteExpiredSessions_lookup. fold cutoff collection.
  repeat split.
  - intros d -> -> ->. reflexivity.
  - intros d -> [-> | ->]; [reflexivity |]. now rewrite andb_false_r.
  - now intros ->.
Qed.

Lemma deleteExpiredSessions_exact_witness :
  firestore (deleteExpiredSessions Sample.this Sample.stocked).2
    !! session_path Sample.this "stale" = None /\
  firestore (deleteExpiredSessions Sample.this Sample.stocked).2
    !! session_path Sample.this "live" = Some Sample.live.
Proof.
  split.
  - refine (proj1 (deleteExpiredSessions_exact Sample.this Sample.stocked
                     (session_path Sample.this "stale"))
              Sample.stale _ _ _); reflexivity.
  - refine (proj1 (proj2 (deleteExpiredSessions_exact Sample.this
                            Sample.stocked
                            (session_path Sample.this "live")))
              Sample.live _ _).
    + reflexivity.
    + right. reflexivity.
Defined.

(** X4.  Saving then loading is a round trip: after [saveSession], a
    lookup of the session's id returns the session just saved, whatever
    was stored under that id before, provided the id is not empty and the
    session has not expired; a session saved with an expiry that has
    passed is not returned. *)
Theorem saveSession_loadSession this (session : ExchangeSession) (w : World) :
  es_sessionId session <> "" ->
  (clock w (ticks w) < expirationTimestamp session ->
   (loadSession this (Some (es_sessionId session))
      (saveSession this session w).2).1 = Some session) /\
  (expirationTimestamp session <= clock w (ticks w) ->
   (loadSession this (Some (es_sessionId session))
      (saveSession this session w).2).1 = None).
Proof.
  intros Hid. split; intros Htime.
  - apply loadSession_active.
    exists (es_sessionId session), (stored session).
    repeat split; try assumption.
    unfold saveSession. run. apply lookup_insert_eq.
  - apply loadSession_inactive.
    apply (expired_id _ _ _ (stored session) (expirationTimestamp session));
      try assumption; [| reflexivity].
    unfold saveSession. run. apply lookup_insert_eq.
Qed.

Lemma saveSession_loadSession_witness :
  (loadSession Sample.this (Some "fresh")
     (saveSession Sample.this
        {| es_sessionId := "fresh"; es_csrfToken := "secret";
           expirationTimestamp := Sample.epoch + 1 |}
        Sample.stocked).2).1
  = Some {| es_sessionId := "fresh"; es_csrfToken := "secret";
            expirationTimestamp := Sample.epoch + 1 |}.
Proof.
  refine (proj1 (saveSession_loadSession Sample.this
                   {| es_sessionId := "fresh"; es_csrfToken := "secret";
                      expirationTimestamp := Sample.epoch + 1 |}
                   Sample.stocked _) _).
  - discriminate.
  - reflexivity.
Defined.




(** ** Issuing sessions, further *)

Lemma string_app_inv_head (s a b : string) : s +:+ a = s +:+ b -> a = b.
Proof.
  induction s as [| c s IH]; simpl; [easy |].
  intros [= H]. now apply IH.
Qed.

Lemma session_path_inj this (a b : string) :
  session_path this a = session_path this b -> a = b.
Proof.
  unfold session_path. intros H.
  apply string_app_inv_head in H. now apply string_app_inv_head in H.
Qed.

(** Deleting the documents a query found, read at one path. *)
Lemma swept_lookup collection cutoff
    (db : gmap string ExchangeSessionStoredInFirestore) (path : string) :
  (if decide (path ∈ expired_docs collection cutoff db)
   then None else db !! path)
  = swept collection cutoff path (db !! path).
Proof.
  unfold swept. destruct (decide _) as [Hin | Hout].
  - apply elem_of_expired_docs in Hin as (d & -> & -> & ->). reflexivity.
  - destruct (db !! path) as [d |] eqn:Hdoc; [| reflexivity].
    destruct (in_collection collection path && expired_at cutoff d) eqn:Hp;
      [| reflexivity].
    apply andb_true_iff in Hp as [Hc He].
    exfalso. apply Hout, elem_of_expired_docs. eauto.
Qed.

Lemma expired_docs_insert_other collection cutoff
    (db : gmap string ExchangeSessionStoredInFirestore) key d path :
  path <> key ->
  path ∈ expired_docs collection cutoff (<[key := d]> db) <->
  path ∈ expired_docs collection cutoff db.
Proof.
  intros Hne. rewrite !elem_of_expired_docs.
  now rewrite lookup_insert_ne by congruence.
Qed.

(** Whatever the order of the race, a document other than the new
    session's comes out of it as the sweep alone would leave it. *)
Lemma sweep_and_save_other this session w path :
  path <> session_path this (es_sessionId session) ->
  firestore (sweep_and_save this session w).2 !! path
  = swept (sessionsStoragePath (settings this)) (clock w (ticks w)) path
      (firestore w !! path).
Proof.
  intros Hne. rewrite <- swept_lookup.
  unfold sweep_and_save, sweep_query, saveSession. run.
  destruct (race w (S (ticks w))); run.
  - match goal with |- context [sweep_delete ?docs ?w1] =>
      pose proof (sweep_delete_lookup docs w1 path) as Hlookup;
      destruct (sweep_delete docs w1) as [[] w2]
    end.
    simpl in *. rewrite lookup_insert_ne by congruence. exact Hlookup.
  - rewrite sweep_delete_lookup. simpl.
    now rewrite lookup_insert_ne by congruence.
  - rewrite sweep_delete_lookup. simpl.
    rewrite lookup_insert_ne by congruence.
    destruct (decide _) as [Hin | Hout], (decide _) as [Hin' | Hout'];
      try reflexivity.
    + apply expired_docs_insert_other in Hin; [contradiction | assumption].
    + exfalso. apply Hout. now apply expired_docs_insert_other.
Qed.

Lemma minting_frame (w : World) :
  firestore (minting w) = firestore w /\
  clock (minting w) = clock w /\
  ticks (minting w) = S (ticks w) /\
  uuids (minting w) = uuids w /\
  drawn (minting w) = S (S (drawn w)) /\
  uploads (minting w) = uploads w.
Proof. repeat split. Qed.

(** What a successful [checkauth] uses up and what it leaves alone. *)
Lemma checkauth_frame this (given : BasicCredentials) (w : World) :
  given = credentials (settings this) ->
  clock (checkauth this given w).2 = clock w /\
  ticks (checkauth this given w).2 = S (S (S (ticks w))) /\
  uuids (checkauth this given w).2 = uuids w /\
  drawn (checkauth this given w).2 = S (S (drawn w)) /\
  uploads (checkauth this given w).2 = uploads w.
Proof.
  intros Hmatch.
  pose proof (checkauth_authorized this given w Hmatch) as Hrun.
  unfold bind at 1 in Hrun.
  destruct (sweep_and_save_frame this (minted this w) (minting w))
    as (Hc & Ht & Hu & Hd & Hup).
  destruct (sweep_and_save this (minted this w) (minting w)) as [[] w2].
  rewrite Hrun. run. simpl in *. repeat split; congruence.
Qed.

(** The document of the new session after a successful [checkauth]. *)
Lemma checkauth_saved this (given : BasicCredentials) (w : World) :
  given = credentials (settings this) ->
  firestore w !! session_path this (es_sessionId (minted this w)) = None ->
  clock w (S (ticks w)) < expirationTimestamp (minted this w) ->
  firestore (checkauth this given w).2
    !! session_path this (es_sessionId (minted this w))
  = Some (stored (minted this w)).
Proof.
  intros Hmatch Hfresh Hcutoff.
  rewrite checkauth_authorized by assumption. unfold bind at 1.
  pose proof (sweep_and_save_persists this (minted this w) (minting w))
    as Hpersists.
  destruct (sweep_and_save this (minted this w) (minting w)) as [[] w2].
  simpl in *. apply Hpersists; assumption.
Qed.

(** Every other document after a successful [checkauth]. *)
Lemma checkauth_other this (given : BasicCredentials) (w : World) path :
  given = credentials (settings this) ->
  path <> session_path this (es_sessionId (minted this w)) ->
  firestore (checkauth this given w).2 !! path
  = swept (sessionsStoragePath (settings this)) (clock w (S (ticks w))) path
      (firestore w !! path).
Proof.
  intros Hmatch Hne.
  rewrite checkauth_authorized by assumption. unfold bind at 1.
  pose proof (sweep_and_save_other this (minted this w) (minting w) path Hne)
    as Hother.
  destruct (sweep_and_save this (minted this w) (minting w)) as [[] w2].
  simpl in *. exact Hother.
Qed.

(** X5.  The session id and csrf token a successful [checkauth] hands
    out validate afterwards, with CSRF protection on or off, as long as
    the session id drawn is not empty and was not in use, and the clock
    has not reached the session's expiry. *)
Theorem checkauth_then_validate this (given : BasicCredentials) (w : World) :
  let issued := minted this w in
  let after := (checkauth this given w).2 in
  given = credentials (settings this) ->
  es_sessionId issued <> "" ->
  firestore w !! session_path this (es_sessionId issued) = None ->
  clock w (S (ticks w)) < expirationTimestamp issued ->
  clock after (ticks after) < expirationTimestamp issued ->
  (validateRequestSessionInfo this
     {| sessionId := Some (es_sessionId issued);
        csrfToken := es_csrfToken issued |} after).1
  = (true, None).
Proof.
  intros issued after Hmatch Hid Hfresh Hcutoff Hnow.
  rewrite validateRequestSessionInfo_verdict. simpl sessionId.
  rewrite (loadSession_active this _ issued).
  - unfold strict_ne. simpl. rewrite String.eqb_refl.
    now rewrite andb_false_r.
  - exists (es_sessionId issued), (stored issued).
    repeat split; try assumption.
    now apply checkauth_saved.
Qed.

Lemma checkauth_then_validate_witness :
  (validateRequestSessionInfo Sample.this_guarded
     {| sessionId := Some "uuid-0"; csrfToken := "uuid-1" |}
     (checkauth Sample.this_guarded {| username := "x"; password := "y" |}
        Sample.stocked).2).1
  = (true, None).
Proof.
  refine (checkauth_then_validate Sample.this_guarded
            {| username := "x"; password := "y" |} Sample.stocked
            _ _ _ _ _).
  - reflexivity.
  - discriminate.
  - reflexivity.
  - vm_compute. reflexivity.
  - vm_compute. reflexivity.
Defined.

(** X7.  A successful [checkauth] replaces no other session: whatever
    the order of the sweep and the save, a document other than the new
    session's is kept as it is unless it belongs to the sessions
    collection and has expired by the sweep's cutoff, in which case it is
    deleted; and no other document appears. *)
Theorem checkauth_other_sessions this (given : BasicCredentials) (w : World)
    (path : string) :
  given = credentials (settings this) ->
  path <> session_path this (uuids w (drawn w)) ->
  let cutoff := clock w (S (ticks w)) in
  let collection := sessionsStoragePath (settings this) in
  let after := firestore (checkauth this given w).2 in
  (forall d,
      firestore w !! path = Some d ->
      in_collection collection path = false \/ expired_at cutoff d = false ->
      after !! path = Some d) /\
  (forall d,
      firestore w !! path = Some d ->
      in_collection collection path = true ->
      expired_at cutoff d = true ->
      after !! path = None) /\
  (firestore w !! path = None -> after !! path = None).
Proof.
  intros Hmatch Hne cutoff collection after. subst after.
  rewrite (checkauth_other this given w path Hmatch Hne).
  fold cutoff collection. unfold swept. repeat split.
  - intros d -> [-> | ->]; [reflexivity |]. now rewrite andb_false_r.
  - intros d -> -> ->. reflexivity.
  - now intros ->.
Qed.

Lemma checkauth_other_sessions_witness :
  firestore
    (checkauth Sample.this {| username := "x"; password := "y" |}
       Sample.stocked).2 !! session_path Sample.this "live"
  = Some Sample.live /\
  firestore
    (checkauth Sample.this {| username := "x"; password := "y" |}
       Sample.stocked).2 !! session_path Sample.this "stale"
  = None.
Proof.
  split.
  - refine (proj1 (checkauth_other_sessions Sample.this
                     {| username := "x"; password := "y" |} Sample.stocked
                     (session_path Sample.this "live") _ _)
              Sample.live _ _).
    + reflexivity.
    + discriminate.
    + reflexivity.
    + right. reflexivity.
  - refine (proj1 (proj2 (checkauth_other_sessions Sample.this
                            {| username := "x"; password := "y" |}
                            Sample.stocked
                            (session_path Sample.this "stale") _ _))
              Sample.stale _ _ _).
    + reflexivity.
    + discriminate.
    + reflexivity.
    + reflexivity.
    + reflexivity.
Defined.

(** X8.  Two successful [checkauth] calls in a row leave two sessions
    side by side: when the uuid source gives the second call a session
    id different from the first, both ids were free, and neither sweep
    runs at or after the expiry of a session just issued, the store
    afterwards holds the first session unchanged and the second one. *)
Theorem checkauth_twice this (given : BasicCredentials) (w : World) :
  let w1 := (checkauth this given w).2 in
  let w2 := (checkauth this given w1).2 in
  let first := minted this w in
  let second := minted this w1 in
  given = credentials (settings this) ->
  es_sessionId first <> es_sessionId second ->
  firestore w !! session_path this (es_sessionId first) = None ->
  firestore w !! session_path this (es_sessionId second) = None ->
  clock w (S (ticks w)) < expirationTimestamp first ->
  clock w1 (S (ticks w1)) < expirationTimestamp first ->
  clock w1 (S (ticks w1)) < expirationTimestamp second ->
  firestore w2 !! session_path this (es_sessionId first)
  = Some (stored first) /\
  firestore w2 !! session_path this (es_sessionId second)
  = Some (stored second) /\
  es_sessionId second = uuids w (S (S (drawn w))).
Proof.
  intros w1 w2 first second Hmatch Hids Hfree1 Hfree2 Hcut1 Hcut2 Hcut3.
  assert (session_path this (es_sessionId first)
          <> session_path this (es_sessionId second)) as Hpaths.
  { intros Heq. now apply session_path_inj in Heq. }
  pose proof (checkauth_saved this given w Hmatch Hfree1 Hcut1) as Hfirst.
  fold w1 first in Hfirst.
  assert (firestore w1 !! session_path this (es_sessionId second) = None)
    as Hfree2'.
  { subst w1.
    rewrite (checkauth_other this given w _ Hmatch (not_eq_sym Hpaths)).
    now rewrite Hfree2. }
  repeat split.
  - subst w2. rewrite checkauth_other by assumption.
    rewrite Hfirst. unfold swept.
    assert (expired_at (clock w1 (S (ticks w1))) (stored first) = false)
      as ->.
    { unfold expired_at. simpl. apply Z.leb_gt. exact Hcut2. }
    now rewrite andb_false_r.
  - now apply checkauth_saved.
  - destruct (checkauth_frame this given w Hmatch) as (_ & _ & Hu & Hd & _).
    change (uuids w1 (drawn w1) = uuids w (S (S (drawn w)))).
    subst w1. now rewrite Hu, Hd.
Qed.

Lemma checkauth_twice_witness :
  firestore
    (checkauth Sample.this {| username := "x"; password := "y" |}
       (checkauth Sample.this {| username := "x"; password := "y" |}
          Sample.blank).2).2 !! session_path Sample.this "uuid-0"
  = Some {| stored_sessionId := "uuid-0";
            stored_csrfToken := "uuid-1";
            stored_expirationTimestamp := Some (Sample.epoch + 3600000) |}.
Proof.
  refine (proj1 (checkauth_twice Sample.this
                   {| username := "x"; password := "y" |} Sample.blank
                   _ _ _ _ _ _ _)).
  - reflexivity.
  - vm_compute. discriminate.
  - reflexivity.
  - reflexivity.
  - vm_compute. reflexivity.
  - vm_compute. reflexivity.
  - vm_compute. reflexivity.
Defined.

(** ** The dispatcher, further *)

Lemma validateRequestSessionInfo_store_view this info w :
  store_view (validateRequestSessionInfo this info w).2
  = store_view (loadSession this (sessionId info) w).2.
Proof.
  unfold validateRequestSessionInfo, bind at 1 2.
  destruct (console_put (LogSessionInfo info) w) as [[] w1] eqn:Hlog.
  assert (store_view w1 = store_view w) as Hv.
  { unfold console_put in Hlog. now injection Hlog as <-. }
  destruct (loadSession_store_view this (sessionId info) w1 w Hv) as [_ <-].
  destruct (loadSession this (sessionId info) w1) as [[s |] w2]; simpl.
  - now destruct (csrfProtection (settings this) && _).
  - reflexivity.
Qed.

(** The validation [main] runs looks the cookie's session id up in the
    store as the request found it. *)
Lemma validated_lookup ext this request w :
  let sessionId := sessionId (requestSessionInfo ext this request) in
  (validated ext this request w).1
  = match (loadSession this sessionId w).1 with
    | None => (false, Some no_active_session_error)
    | Some storedSession =>
        if csrfProtection (settings this) &&
           strict_ne (csrfToken (requestSessionInfo ext this request))
             (es_csrfToken storedSession)
        then (false, Some invalid_csrf_token_error)
        else (true, None)
    end /\
  store_view (validated ext this request w).2
  = store_view (loadSession this sessionId w).2.
Proof.
  intros sid. unfold validated.
  rewrite validateRequestSessionInfo_verdict,
    validateRequestSessionInfo_store_view.
  fold sid.
  destruct (loadSession_store_view this sid _ w
              (announce_store_view request w)) as [-> ->].
  split; reflexivity.
Qed.

Lemma validated_frame ext this request w :
  uploads (validated ext this request w).2 = uploads w /\
  drawn (validated ext this request w).2 = drawn w.
Proof.
  unfold validated.
  destruct (validateRequestSessionInfo_frame this
              (requestSessionInfo ext this request)
              (console_put (LogRequest request) (announce request w).2).2)
    as (Hu & Hd & _).
  split; [exact Hu | exact Hd].
Qed.

(** [main] behind a validation that passed. *)
Lemma main_passed ext this request w :
  unsupported_type (query request !! "type") = false ->
  mode_is (query request !! "mode") "checkauth" = false ->
  (validated ext this request w).1.1 = true ->
  main ext this (Some request) w
  = dispatch_validated ext this request (validated ext this request w).2.
Proof.
  intros Htype Hmode Hpass.
  rewrite main_validated by assumption. unfold bind at 1.
  fold (validated ext this request w).
  destruct (validated ext this request w) as [[ok error] w3].
  simpl in *. now subst ok.
Qed.

(** [main] behind a validation that failed. *)
Lemma main_refused ext this request w :
  unsupported_type (query request !! "type") = false ->
  mode_is (query request !! "mode") "checkauth" = false ->
  (validated ext this request w).1.1 = false ->
  main ext this (Some request) w
  = (Returned (result ["failure";
                       default "" (validated ext this request w).1.2]),
     (console_error (validated ext this request w).1.2
        (validated ext this request w).2).2).
Proof.
  intros Htype Hmode Hfail.
  rewrite main_validated by assumption. unfold bind at 1.
  fold (validated ext this request w).
  destruct (validated ext this request w) as [[ok error] w3].
  simpl in *. now subst ok.
Qed.

(** X9.  A request whose type is neither catalog nor report, or is
    missing, is refused before anything else is looked at, the mode
    included: the failure names the type, and the store, the uploads,
    the uuid source and the clock are left untouched and no validation
    runs, also for mode checkauth with the right credentials. *)
Theorem main_unsupported_type_refused ext this request w :
  unsupported_type (query request !! "type") = true ->
  (main ext this (Some request) w).1
  = Returned
      ("failure" +:+ LF +:+
       "Parameter type " +:+ QUOTE +:+
       interpolate (query request !! "type") +:+ QUOTE +:+
       " is not supported. Supported parameters: catalog, report") /\
  firestore (main ext this (Some request) w).2 = firestore w /\
  uploads (main ext this (Some request) w).2 = uploads w /\
  drawn (main ext this (Some request) w).2 = drawn w /\
  ticks (main ext this (Some request) w).2 = ticks w /\
  validations (main ext this (Some request) w).2 = validations w.
Proof.
  intros Htype. unfold main. cbv zeta. rewrite Htype.
  repeat split.
  unfold validations. simpl.
  rewrite !List.filter_app, !length_app. simpl. lia.
Qed.

Lemma main_unsupported_type_refused_witness :
  (main Node.imports Sample.this
     (Some {| query := list_to_map [("mode", "checkauth")];
              cookieHeader := None;
              basicAuth := Some ("x", "y");
              rawBody := None |})
     Sample.blank).1
  = Returned
      ("failure" +:+ LF +:+
       "Parameter type " +:+ QUOTE +:+ "undefined" +:+ QUOTE +:+
       " is not supported. Supported parameters: catalog, report").
Proof.
  refine (proj1 (main_unsupported_type_refused Node.imports Sample.this
                   {| query := list_to_map [("mode", "checkauth")];
                      cookieHeader := None;
                      basicAuth := Some ("x", "y");
                      rawBody := None |}
                   Sample.blank _)).
  reflexivity.
Defined.

(** X10.  With a supported type and a session that validates, a mode
    that is none of checkauth, init, file and import, or is missing,
    yields the failure that names the type and the mode, and nothing is
    uploaded. *)
Theorem main_unsupported_mode_refused ext this request w :
  unsupported_type (query request !! "type") = false ->
  mode_is (query request !! "mode") "checkauth" = false ->
  mode_is (query request !! "mode") "init" = false ->
  mode_is (query request !! "mode") "file" = false ->
  mode_is (query request !! "mode") "import" = false ->
  (validated ext this request w).1.1 = true ->
  (main ext this (Some request) w).1
  = Returned
      ("failure" +:+ LF +:+
       "Type '" +:+ interpolate (query request !! "type") +:+
       "' and mode '" +:+ interpolate (query request !! "mode") +:+
       "' are not supported.") /\
  uploads (main ext this (Some request) w).2 = uploads w.
Proof.
  intros Htype Hcheckauth Hinit Hfile Himport Hpass.
  rewrite main_passed by assumption.
  destruct (validated_frame ext this request w) as [Hu _].
  unfold dispatch_validated. cbv zeta. rewrite Hinit, Hfile, Himport.
  simpl. split; [reflexivity | exact Hu].
Qed.

Lemma main_unsupported_mode_refused_witness :
  (main Node.imports Sample.this
     (Some (Sample.request [("type", "catalog"); ("mode", "query")]
              (Some "sessionId=live") None))
     Sample.stocked).1
  = Returned
      ("failure" +:+ LF +:+
       "Type 'catalog' and mode 'query' are not supported.").
Proof.
  refine (proj1 (main_unsupported_mode_refused Node.imports Sample.this
                   (Sample.request [("type", "catalog"); ("mode", "query")]
                      (Some "sessionId=live") None)
                   Sample.stocked _ _ _ _ _ _)).
  - reflexivity.
  - reflexivity.
  - reflexivity.
  - reflexivity.
  - reflexivity.
  - vm_compute. reflexivity.
Defined.

(** X11.  For a request of a supported type in mode init whose session
    validates, and a configured size limit that is an integer a
    JavaScript number holds exactly, [main] answers with the two lines
    "zip=yes" or "zip=no" and "file_limit=" followed by the digits of
    the limit, and does nothing else: the world is the one validation
    left. *)
Theorem main_init_lines ext this request w :
  unsupported_type (query request !! "type") = false ->
  mode_is (query request !! "mode") "init" = true ->
  (validated ext this request w).1.1 = true ->
  safe_integer (fileSizeLimit (settings this)) ->
  main ext this (Some request) w
  = (Returned
       ("zip=" +:+ (if zip (settings this) then "yes" else "no") +:+ LF +:+
        "file_limit=" +:+ pretty (fileSizeLimit (settings this))),
     (validated ext this request w).2).
Proof.
  intros Htype Hmode Hpass _.
  assert (mode_is (query request !! "mode") "checkauth" = false) as Hnot.
  { destruct (query request !! "mode") as [mode |]; [| reflexivity].
    simpl in *. apply String.eqb_eq in Hmode as ->. reflexivity. }
  rewrite main_passed by assumption.
  unfold dispatch_validated. cbv zeta. rewrite Hmode.
  unfold init. run. now destruct (zip (settings this)).
Qed.

Lemma main_init_lines_witness :
  (main Node.imports Sample.this
     (Some (Sample.request [("type", "report"); ("mode", "init")]
              (Some "sessionId=live") None))
     Sample.stocked).1
  = Returned ("zip=no" +:+ LF +:+ "file_limit=9437184").
Proof.
  refine (f_equal fst
            (main_init_lines Node.imports Sample.this
               (Sample.request [("type", "report"); ("mode", "init")]
                  (Some "sessionId=live") None)
               Sample.stocked _ _ _ _)).
  - reflexivity.
  - reflexivity.
  - vm_compute. reflexivity.
  - unfold safe_integer. simpl. lia.
Defined.

(** X12.  For a request of either supported type in mode import whose
    session validates, [main] acknowledges with "success" when the
    filename is not empty and fails with "Filename is empty." when it is
    missing or empty; either way the body is ignored and nothing is
    uploaded. *)
Theorem main_import_acknowledges ext this request w :
  unsupported_type (query request !! "type") = false ->
  mode_is (query request !! "mode") "import" = true ->
  (validated ext this request w).1.1 = true ->
  (main ext this (Some request) w).1
  = Returned (if falsy (query request !! "filename")
              then "failure" +:+ LF +:+ "Filename is empty."
              else "success") /\
  uploads (main ext this (Some request) w).2 = uploads w /\
  firestore (main ext this (Some request) w).2
  = firestore (validated ext this request w).2.
Proof.
  intros Htype Hmode Hpass.
  assert (mode_is (query request !! "mode") "checkauth" = false /\
          mode_is (query request !! "mode") "init" = false /\
          mode_is (query request !! "mode") "file" = false)
    as (Hcheckauth & Hinit & Hfile).
  { destruct (query request !! "mode") as [mode |]; [| easy].
    simpl in *. apply String.eqb_eq in Hmode as ->. easy. }
  rewrite main_passed by assumption.
  destruct (validated_frame ext this request w) as [Hu _].
  unfold dispatch_validated. cbv zeta. rewrite Hinit, Hfile, Hmode.
  simpl. unfold import.
  destruct (falsy (query request !! "filename")); run;
    repeat split; exact Hu.
Qed.

Lemma main_import_acknowledges_witness :
  (main Node.imports Sample.this
     (Some (Sample.request
              [("type", "report"); ("mode", "import");
               ("filename", "import.xml")]
              (Some "sessionId=live") None))
     Sample.stocked).1
  = Returned "success".
Proof.
  refine (proj1 (main_import_acknowledges Node.imports Sample.this
                   (Sample.request
                      [("type", "report"); ("mode", "import");
                       ("filename", "import.xml")]
                      (Some "sessionId=live") None)
                   Sample.stocked _ _ _)).
  - reflexivity.
  - reflexivity.
  - vm_compute. reflexivity.
Defined.

(** X13.  A request without a Cookie header, or with an empty one, never
    gets past validation in any mode but checkauth, whatever the store
    holds: [main] fails with the no-active-session message, the store is
    not read into or changed, and nothing is uploaded. *)
Theorem main_without_cookie ext this request w :
  unsupported_type (query request !! "type") = false ->
  mode_is (query request !! "mode") "checkauth" = false ->
  falsy (cookieHeader request) = true ->
  (main ext this (Some request) w).1
  = Returned
      ("failure" +:+ LF +:+
       "No active session found. Use 'mode=checkauth' to start a new session.") /\
  firestore (main ext this (Some request) w).2 = firestore w /\
  ticks (main ext this (Some request) w).2 = ticks w /\
  uploads (main ext this (Some request) w).2 = uploads w.
Proof.
  intros Htype Hmode Hcookie.
  assert (falsy (sessionId (requestSessionInfo ext this request)) = true)
    as Hsid.
  { unfold requestSessionInfo. simpl.
    destruct (cookieHeader request) as [[| c s] |];
      [reflexivity | discriminate | reflexivity]. }
  destruct (validated_lookup ext this request w) as [Hverdict Hview].
  destruct (validated_frame ext this request w) as [Hu _].
  rewrite loadSession_falsy in Hverdict, Hview by assumption.
  simpl in Hverdict. unfold store_view in Hview. injection Hview as Hf _ Ht.
  rewrite main_refused by (assumption || now rewrite Hverdict).
  rewrite Hverdict. simpl. repeat split; assumption.
Qed.

Lemma main_without_cookie_witness :
  (main Node.imports Sample.this
     (Some (Sample.request
              [("type", "catalog"); ("mode", "import");
               ("filename", "import.xml")]
              None None))
     Sample.stocked).1
  = Returned
      ("failure" +:+ LF +:+
       "No active session found. Use 'mode=checkauth' to start a new session.").
Proof.
  refine (proj1 (main_without_cookie Node.imports Sample.this
                   (Sample.request
                      [("type", "catalog"); ("mode", "import");
                       ("filename", "import.xml")]
                      None None)
                   Sample.stocked _ _ _)).
  - reflexivity.
  - reflexivity.
  - reflexivity.
Defined.

(** X14.  With settings that [create] accepted, a checkauth request that
    carries no basic-auth credentials is always refused: [main] returns
    "failure" and "Unauthorized" and the session store is unchanged. *)
Theorem main_checkauth_without_credentials ext settingsPath
    (l : LoadedSettings) this request w :
  create settingsPath l = Returned this ->
  unsupported_type (query request !! "type") = false ->
  mode_is (query request !! "mode") "checkauth" = true ->
  basicAuth request = None ->
  (main ext this (Some request) w).1
  = Returned ("failure" +:+ LF +:+ "Unauthorized") /\
  firestore (main ext this (Some request) w).2 = firestore w /\
  drawn (main ext this (Some request) w).2 = drawn w.
Proof.
  intros Hcreate Htype Hmode Hauth.
  unfold create in Hcreate.
  destruct (getSettings settingsPath l) as [loaded |] eqn:Hsettings;
    [| discriminate].
  injection Hcreate as <-.
  apply getSettings_credentials_set in Hsettings as [Hname _].
  rewrite main_checkauth by assumption.
  assert (getBasicCredentials request
          <> credentials (settings (new_Exchange1c loaded))) as Hdiffer.
  { unfold getBasicCredentials. rewrite Hauth. simpl.
    intros Heq. apply Hname. now rewrite <- Heq. }
  apply credentials_differ in Hdiffer.
  unfold bind, checkauth. rewrite Hdiffer. repeat split.
Qed.

Lemma main_checkauth_without_credentials_witness :
  (main Node.imports Sample.this
     (Some (Sample.request [("type", "catalog"); ("mode", "checkauth")]
              None None))
     Sample.blank).1
  = Returned ("failure" +:+ LF +:+ "Unauthorized").
Proof.
  refine (proj1 (main_checkauth_without_credentials Node.imports
                   Sample.settingsPath Sample.loaded Sample.this
                   (Sample.request [("type", "catalog"); ("mode", "checkauth")]
                      None None)
                   Sample.blank _ _ _ _)).
  - reflexivity.
  - reflexivity.
  - reflexivity.
  - reflexivity.
Defined.

(** X15.  For a request in mode file whose session validates, with a
    non-empty filename and a body, [main] returns "success" and uploads
    exactly one object holding the body: a catalog goes to
    '1c-exchange-files' when the filename starts with [import_files] and
    to '1c-exchange-catalog' otherwise, a report goes to
    '1c-exchange-report'. *)
Theorem main_file_upload ext this request w (filename : string)
    (body : Buffer) :
  unsupported_type (query request !! "type") = false ->
  mode_is (query request !! "mode") "file" = true ->
  (validated ext this request w).1.1 = true ->
  query request !! "filename" = Some filename ->
  filename <> "" ->
  rawBody request = Some body ->
  (main ext this (Some request) w).1 = Returned "success" /\
  exists u,
    uploads (main ext this (Some request) w).2 = uploads w ++ [u] /\
    data u = body /\
    bucketName u
    = if mode_is (query request !! "type") "catalog"
      then if String.prefix "import_files" filename
           then "1c-exchange-files" else "1c-exchange-catalog"
      else "1c-exchange-report".
Proof.
  intros Htype Hmode Hpass Hfilename Hname Hbody.
  assert (mode_is (query request !! "mode") "checkauth" = false) as Hnot.
  { destruct (query request !! "mode") as [mode |]; [| reflexivity].
    simpl in *. apply String.eqb_eq in Hmode as ->. reflexivity. }
  rewrite main_passed by assumption.
  destruct (validated_frame ext this request w) as [Hu _].
  rewrite dispatch_validated_file by assumption.
  rewrite Hfilename, Hbody. unfold bind.
  destruct (mode_is (query request !! "type") "catalog").
  - destruct (file_upload ext this filename body
                (validated ext this request w).2 Hname) as [Hok Hup].
    destruct (file ext this (Some filename) (Some body) _) as [r w4].
    simpl in *. subst r. split; [reflexivity |].
    eexists. split; [rewrite Hup, Hu; reflexivity |].
    now destruct (String.prefix "import_files" filename).
  - destruct (fileReport_upload ext this filename body
                (validated ext this request w).2 Hname) as [Hok Hup].
    destruct (fileReport ext this (Some filename) (Some body) _) as [r w4].
    simpl in *. subst r. split; [reflexivity |].
    eexists. split; [rewrite Hup, Hu; reflexivity |].
    now destruct (String.prefix "import_files" filename).
Qed.

Lemma main_file_upload_witness :
  (main Node.imports Sample.this
     (Some (Sample.request
              [("type", "report"); ("mode", "file");
               ("filename", "import_files/r/report1.xml")]
              (Some "sessionId=live") (Some Sample.body)))
     Sample.stocked).1
  = Returned "success".
Proof.
  refine (proj1 (main_file_upload Node.imports Sample.this
                   (Sample.request
                      [("type", "report"); ("mode", "file");
                       ("filename", "import_files/r/report1.xml")]
                      (Some "sessionId=live") (Some Sample.body))
                   Sample.stocked "import_files/r/report1.xml" Sample.body
                   _ _ _ _ _ _)).
  - reflexivity.
  - reflexivity.
  - vm_compute. reflexivity.
  - reflexivity.
  - discriminate.
  - reflexivity.
Defined.

(** X16.  A request, in any mode but checkauth, whose cookie names a
    session that has expired is refused with the no-active-session
    message, and the expired session's document is deleted on the way;
    the rest of the store is as before and nothing is uploaded. *)
Theorem main_expired_session_deleted ext this request w (id : string)
    (storedSession : ExchangeSessionStoredInFirestore) (expiration : Z) :
  unsupported_type (query request !! "type") = false ->
  mode_is (query request !! "mode") "checkauth" = false ->
  sessionId (requestSessionInfo ext this request) = Some id ->
  id <> "" ->
  firestore w !! session_path this id = Some storedSession ->
  stored_expirationTimestamp storedSession = Some expiration ->
  expiration <= clock w (ticks w) ->
  (main ext this (Some request) w).1
  = Returned
      ("failure" +:+ LF +:+
       "No active session found. Use 'mode=checkauth' to start a new session.") /\
  firestore (main ext this (Some request) w).2
  = delete (session_path this id) (firestore w) /\
  uploads (main ext this (Some request) w).2 = uploads w.
Proof.
  intros Htype Hmode Hsid Hid Hdoc Hexpiry Hpast.
  destruct (validated_lookup ext this request w) as [Hverdict Hview].
  destruct (validated_frame ext this request w) as [Hu _].
  rewrite Hsid in Hverdict, Hview.
  destruct (loadSession_expired this id storedSession expiration w)
    as [Hnone Hdeleted]; try assumption.
  rewrite Hnone in Hverdict.
  unfold store_view in Hview. injection Hview as Hf _ _.
  rewrite main_refused by (assumption || now rewrite Hverdict).
  rewrite Hverdict. simpl. repeat split; [| exact Hu].
  now rewrite Hf.
Qed.

Lemma main_expired_session_deleted_witness :
  firestore
    (main Node.imports Sample.this
       (Some (Sample.request [("type", "catalog"); ("mode", "init")]
                (Some "sessionId=stale") None))
       Sample.stocked).2
  = delete (session_path Sample.this "stale") (firestore Sample.stocked).
Proof.
  refine (proj1 (proj2
            (main_expired_session_deleted Node.imports Sample.this
               (Sample.request [("type", "catalog"); ("mode", "init")]
                  (Some "sessionId=stale") None)
               Sample.stocked "stale" Sample.stale (Sample.epoch - 1)
               _ _ _ _ _ _ _))).
  - reflexivity.
  - reflexivity.
  - reflexivity.
  - discriminate.
  - reflexivity.
  - reflexivity.
  - vm_compute. discriminate.
Defined.

(** ** The country list scripts *)

Lemma fold_push_names (data : list Countries.Country) (list : list string) :
  fold_left (fun list n => list ++ [Countries.Name n]) data list
  = list ++ map Countries.Name data.
Proof.
  revert list. induction data as [| n data IH]; intros list; simpl.
  - now rewrite app_nil_r.
  - rewrite IH. now rewrite <- app_assoc.
Qed.

(** The indexed loop over a suffix of the array. *)
Lemma fold_index_names (before rest : list Countries.Country)
    (list : list string) :
  fold_left
    (fun acc i =>
       match acc with
       | Returned list =>
           match (before ++ rest) !! i with
           | Some n => Returned (list ++ [Countries.Name n])
           | None =>
               Thrown "Cannot read properties of undefined (reading 'Name')"
           end
       | Thrown message => Thrown message
       end)
    (seq (length before) (length rest)) (Returned list)
  = Returned (list ++ map Countries.Name rest).
Proof.
  revert before list. induction rest as [| n rest IH]; intros before list.
  - simpl. now rewrite app_nil_r.
  - simpl seq. simpl fold_left.
    rewrite list_lookup_middle by reflexivity.
    replace (before ++ n :: rest) with ((before ++ [n]) ++ rest)
      by now rewrite <- app_assoc.
    replace (S (length before)) with (length (before ++ [n]))
      by (rewrite length_app; simpl; lia).
    rewrite IH. simpl. now rewrite <- app_assoc.
Qed.

(** X17.  The variants of the script agree: the one that walks the
    response with [forEach] and the one that walks its indices with
    [for...in] both return the names of the entries, one per entry and
    in the order of the response, and the indexed one never throws. *)
Theorem countries_variants_agree (data : list Countries.Country) :
  Countries.main_forEach data = map Countries.Name data /\
  Countries.main_forIn data = Returned (Countries.main_forEach data) /\
  length (Countries.main_forEach data) = length data /\
  (forall i, Countries.main_forEach data !! i
             = Countries.Name <$> data !! i).
Proof.
  assert (Countries.main_forEach data = map Countries.Name data) as Heach.
  { unfold Countries.main_forEach. now rewrite fold_push_names. }
  repeat split.
  - exact Heach.
  - rewrite Heach. unfold Countries.main_forIn.
    apply (fold_index_names [] data []).
  - rewrite Heach. apply length_map.
  - intros i. rewrite Heach. apply list_lookup_fmap.
Qed.

Lemma string_app_nil_r (s : string) : s +:+ "" = s.
Proof.
  induction s as [| c s IH]; [reflexivity |].
  change (String c (s +:+ "") = String c s). now rewrite IH.
Qed.

Lemma string_app_assoc (a b c : string) : (a +:+ b) +:+ c = a +:+ b +:+ c.
Proof.
  induction a as [| x a IH]; [reflexivity |].
  change (String x ((a +:+ b) +:+ c) = String x (a +:+ b +:+ c)).
  now rewrite IH.
Qed.

Lemma fold_text_names (data : list Countries.Country) (text : string) :
  fold_left (fun list n => (list +:+ Countries.Name n) +:+ LF) data text
  = text +:+
    String.concat "" (map (fun n => Countries.Name n +:+ LF) data).
Proof.
  revert text. induction data as [| n data IH]; intros text.
  - simpl. now rewrite string_app_nil_r.
  - simpl fold_left. rewrite IH.
    assert (String.concat "" (map (fun n => Countries.Name n +:+ LF) (n :: data))
            = (Countries.Name n +:+ LF) +:+
              String.concat "" (map (fun n => Countries.Name n +:+ LF) data))
      as ->.
    { simpl. destruct (map _ data); simpl; [| reflexivity].
      now rewrite string_app_nil_r. }
    now rewrite !string_app_assoc.
Qed.

(** X18.  The text variant of src/index.js sends every name followed by
    a line feed: the empty string for an empty response, and otherwise
    the names of the list variant joined by line feeds with one more
    line feed at the end. *)
Theorem countries_text_lines (data : list Countries.Country) :
  Countries.main_text data
  = String.concat "" (map (fun name => name +:+ LF)
                        (Countries.main_forEach data)) /\
  (data = [] -> Countries.main_text data = "") /\
  (data <> [] ->
   Countries.main_text data
   = String.concat LF (Countries.main_forEach data) +:+ LF).
Proof.
  assert (Countries.main_forEach data = map Countries.Name data) as Heach.
  { unfold Countries.main_forEach. now rewrite fold_push_names. }
  assert (Countries.main_text data
          = String.concat ""
              (map (fun n => Countries.Name n +:+ LF) data)) as Htext.
  { unfold Countries.main_text. now rewrite fold_text_names. }
  rewrite Htext, Heach. repeat split.
  - now rewrite map_map.
  - now intros ->.
  - intros Hdata. clear Heach Htext.
    induction data as [| n data IH]; [contradiction |].
    destruct data as [| m data].
    + simpl. reflexivity.
    + specialize (IH ltac:(discriminate)).
      change (String.concat "" (map (fun n => Countries.Name n +:+ LF)
                                  (n :: m :: data)))
        with ((Countries.Name n +:+ LF) +:+
              String.concat "" (map (fun n => Countries.Name n +:+ LF)
                                  (m :: data))).
      rewrite IH.
      change (String.concat LF (map Countries.Name (n :: m :: data)))
        with (Countries.Name n +:+ LF +:+
              String.concat LF (map Countries.Name (m :: data))).
      now rewrite !string_app_assoc.
Qed.

Example countries_text_sample :
  Countries.main_text
    [{| Countries.Name := "Peru" |}; {| Countries.Name := "Togo" |}]
  = "Peru" +:+ LF +:+ "Togo" +:+ LF.
Proof. reflexivity. Qed.
